(** * check_azure_resource: the Nagios plugin for Azure resource metrics

    A shallow embedding of [check_azure_resource.py] and the properties of
    its metric-resolution and threshold-evaluation pipeline.

    Python values decoded from JSON are the inductive type [pyval]; the
    subscripts, membership tests and method calls the plugin performs on
    them are total functions into [res], whose [Fail] case is the Python
    exception the operation raises.  The plugin's methods live in the monad
    [M]: they thread the list of remote calls made so far together with the
    accumulated perfdata, and end by returning, by raising, or by leaving
    the process ([nagios_exit], [parser.error]).

    Text is modelled as ASCII strings and floats as the rationals they
    denote. *)

From Stdlib Require Import String Ascii List ZArith QArith Bool Lia.
From Stdlib Require Import DecimalString DecimalPos.
Import ListNotations.
Open Scope list_scope.
Open Scope string_scope.

Set Implicit Arguments.
Set Warnings "-register-all".

(** ** Python values *)

Module Py.

(** The values [response.json()] can produce. *)
Inductive pyval : Type :=
| PNone
| PBool (b : bool)
| PInt (z : Z)
| PFloat (q : Q)
| PStr (s : string)
| PList (items : list pyval)
| PDict (entries : list (string * pyval)).

(** The exceptions that occur in the plugin. *)
Inductive exn : Type :=
| KeyError
| IndexError
| TypeError
| AttributeError
| PynagError
| CloudError (message : string).

(** Result of an expression that may raise. *)
Inductive res (A : Type) : Type :=
| Ok (a : A)
| Fail (e : exn).
Arguments Ok {A} a.
Arguments Fail {A} e.

Definition rbind {A B} (r : res A) (k : A -> res B) : res B :=
  match r with
  | Ok a => k a
  | Fail e => Fail e
  end.

Declare Scope res_scope.
Delimit Scope res_scope with res.
Notation "x <- r ;; k" := (rbind r (fun x => k))
  (at level 61, r at next level, right associativity) : res_scope.

(** Lookup in a dict, kept as its list of entries in insertion order. *)
Fixpoint assoc {V} (k : string) (kv : list (string * V)) : option V :=
  match kv with
  | [] => None
  | (k', v) :: rest => if String.eqb k k' then Some v else assoc k rest
  end.

(** [d[k] = v] on a dict kept as a list: replace in place, else append. *)
Fixpoint dict_set {V} (k : string) (v : V) (kv : list (string * V))
  : list (string * V) :=
  match kv with
  | [] => [(k, v)]
  | (k', v') :: rest =>
      if String.eqb k k' then (k, v) :: rest else (k', v') :: dict_set k v rest
  end.

(** [dict(base, **extra)]. *)
Definition dict_merge {V} (base extra : list (string * V)) : list (string * V) :=
  fold_left (fun acc kv => dict_set (fst kv) (snd kv) acc) extra base.

(** [bool(v)]. *)
Definition truthy (v : pyval) : bool :=
  match v with
  | PNone => false
  | PBool b => b
  | PInt z => negb (Z.eqb z 0)
  | PFloat q => negb (Qeq_bool q 0)
  | PStr s => negb (String.eqb s "")
  | PList l => match l with [] => false | _ => true end
  | PDict kv => match kv with [] => false | _ => true end
  end.

(** [v[k]] for a string key. *)
Definition getitem (v : pyval) (k : string) : res pyval :=
  match v with
  | PDict kv =>
      match assoc k kv with
      | Some x => Ok x
      | None => Fail KeyError
      end
  | _ => Fail TypeError
  end.

(** [v[0]].  A decoded JSON object has string keys only, so [0] is
    never one of them. *)
Definition getitem0 (v : pyval) : res pyval :=
  match v with
  | PList (x :: _) => Ok x
  | PList [] => Fail IndexError
  | PStr (String c _) => Ok (PStr (String c EmptyString))
  | PStr EmptyString => Fail IndexError
  | PDict _ => Fail KeyError
  | _ => Fail TypeError
  end.

(** [v.get(k, default)]: only dicts have the method. *)
Definition dict_get (v : pyval) (k : string) (default : pyval) : res pyval :=
  match v with
  | PDict kv =>
      match assoc k kv with
      | Some x => Ok x
      | None => Ok default
      end
  | _ => Fail AttributeError
  end.

Fixpoint chars (s : string) : list pyval :=
  match s with
  | EmptyString => []
  | String c rest => PStr (String c EmptyString) :: chars rest
  end.

(** The items a [for] loop or a comprehension visits. *)
Definition iterate (v : pyval) : res (list pyval) :=
  match v with
  | PList l => Ok l
  | PStr s => Ok (chars s)
  | PDict kv => Ok (map (fun e => PStr (fst e)) kv)
  | _ => Fail TypeError
  end.

(** [reversed(v)]; a dict gives its keys, last inserted first. *)
Definition reversed (v : pyval) : res (list pyval) :=
  match v with
  | PList l => Ok (rev l)
  | PStr s => Ok (rev (chars s))
  | PDict kv => Ok (rev (map (fun e => PStr (fst e)) kv))
  | _ => Fail TypeError
  end.

(** [s == v] for a string [s]. *)
Definition str_eq (s : string) (v : pyval) : bool :=
  match v with
  | PStr s' => String.eqb s s'
  | _ => false
  end.

Fixpoint is_substring (needle hay : string) : bool :=
  if String.prefix needle hay then true
  else match hay with
       | EmptyString => false
       | String _ rest => is_substring needle rest
       end.

(** [k in v] for a string [k]. *)
Definition contains (k : string) (v : pyval) : res bool :=
  match v with
  | PDict kv => Ok (match assoc k kv with Some _ => true | None => false end)
  | PList l => Ok (existsb (str_eq k) l)
  | PStr s => Ok (is_substring k s)
  | _ => Fail TypeError
  end.

Definition lower_ascii (c : ascii) : ascii :=
  let n := nat_of_ascii c in
  if (65 <=? n)%nat && (n <=? 90)%nat then ascii_of_nat (n + 32) else c.

Fixpoint lower_string (s : string) : string :=
  match s with
  | EmptyString => EmptyString
  | String c rest => String (lower_ascii c) (lower_string rest)
  end.

(** [v.lower()]: a method of strings only. *)
Definition lower (v : pyval) : res string :=
  match v with
  | PStr s => Ok (lower_string s)
  | _ => Fail AttributeError
  end.

(** [sep.join(items)]: every item has to be a string. *)
Fixpoint join (sep : string) (items : list pyval) : res string :=
  match items with
  | [] => Ok ""
  | [PStr s] => Ok s
  | PStr s :: rest =>
      match join sep rest with
      | Ok t => Ok (s ++ sep ++ t)
      | Fail e => Fail e
      end
  | _ => Fail TypeError
  end.

(** [[f(x) for x in items]]. *)
Fixpoint comprehension {A B} (f : A -> res B) (items : list A) : res (list B) :=
  match items with
  | [] => Ok []
  | x :: rest =>
      match f x with
      | Ok y =>
          match comprehension f rest with
          | Ok ys => Ok (y :: ys)
          | Fail e => Fail e
          end
      | Fail e => Fail e
      end
  end.

(** [str(z)] for an int. *)
Definition str_of_int (z : Z) : string := NilZero.string_of_int (Z.to_int z).

End Py.

(** ** Threshold ranges *)

Module Pynag.
Import Py.

(** The four statuses of a check, [Plugins.OK] to [Plugins.UNKNOWN]. *)
Inductive status : Type := OK | WARNING | CRITICAL | UNKNOWN.

(** Modelled from the spec: the structured range a threshold spec is
    parsed into; pynag, which reads the specs, is a library outside the
    repository.  [None] bounds are the infinite ones. *)
Record range : Type := mkRange {
  inverted : bool;
  lo : option Q;
  hi : option Q
}.

Definition digit_of (c : ascii) : option Z :=
  let n := nat_of_ascii c in
  if (48 <=? n)%nat && (n <=? 57)%nat then Some (Z.of_nat (n - 48)) else None.

(** Value of a run of decimal digits, continuing from [acc]. *)
Fixpoint digits (s : string) (acc : Z) : option Z :=
  match s with
  | EmptyString => Some acc
  | String c rest =>
      match digit_of c with
      | Some d => digits rest (10 * acc + d)
      | None => None
      end
  end.

(** Split at the first occurrence of [sep]. *)
Fixpoint split_at (sep : ascii) (s : string) : option (string * string) :=
  match s with
  | EmptyString => None
  | String c rest =>
      if Ascii.eqb c sep then Some (EmptyString, rest)
      else match split_at sep rest with
           | Some (a, b) => Some (String c a, b)
           | None => None
           end
  end.

Definition unsigned_decimal (s : string) : option Q :=
  let (ip, fp) := match split_at "." s with
                  | Some p => p
                  | None => (s, EmptyString)
                  end in
  if (String.length ip + String.length fp =? 0)%nat then None
  else match digits ip 0 with
       | Some i =>
           match digits fp i with
           | Some n => Some (Qmake n (Z.to_pos (10 ^ Z.of_nat (String.length fp))))
           | None => None
           end
       | None => None
       end.

(** [float(s)] on the decimal literals: an optional sign, digits, an
    optional fraction.  [None] is Python's [ValueError].  The exponent,
    [inf]/[nan] and padded forms that [float] also reads are not
    covered. *)
Definition float_of_string (s : string) : option Q :=
  match s with
  | String "-" rest => option_map Qopp (unsigned_decimal rest)
  | String "+" rest => unsigned_decimal rest
  | _ => unsigned_decimal s
  end.

(** The number a fetched value stands for, when it is one. *)
Definition number_of (v : pyval) : option Q :=
  match v with
  | PInt z => Some (inject_Z z)
  | PFloat q => Some q
  | _ => None
  end.

(** Modelled from the spec: the bounds of a spec without its [@],
    pynag's code being outside the repository.  A bare number [n] is the
    range from 0 to [n]; in [lo:hi] an omitted [hi] is +infinity, [~]
    for [lo] is -infinity and an omitted [lo] is 0. *)
Definition parse_bounds (s : string) : option (option Q * option Q) :=
  match split_at ":" s with
  | None =>
      match float_of_string s with
      | Some n => Some (Some 0, Some n)
      | None => None
      end
  | Some (start, stop) =>
      let lo := if String.eqb start "~" then Some None
                else if String.eqb start "" then Some (Some 0)
                else option_map Some (float_of_string start) in
      let hi := if String.eqb stop "" then Some None
                else option_map Some (float_of_string stop) in
      match lo, hi with
      | Some l, Some h => Some (l, h)
      | _, _ => None
      end
  end.

(** Modelled from the spec: the range syntax read by pynag's
    [Plugins.check_threshold], a library the plugin imports and whose
    code is not part of the repository.  A spec is a bare number [n],
    standing for the range from 0 to [n], or [lo:hi] where an omitted
    [hi] is +infinity and [~] for [lo] is -infinity, with an optional
    leading [@] that inverts it.  An omitted [lo] is 0, as for the bare
    number. *)
Definition parse_range (spec : string) : option range :=
  match spec with
  | String "@" rest =>
      option_map (fun b => mkRange true (fst b) (snd b)) (parse_bounds rest)
  | _ => option_map (fun b => mkRange false (fst b) (snd b)) (parse_bounds spec)
  end.

(** Modelled from the spec: membership in the closed interval of a
    range (pynag's [check_range], outside the repository). *)
Definition inside (r : range) (v : Q) : bool :=
  match lo r with Some l => Qle_bool l v | None => true end
  && match hi r with Some h => Qle_bool v h | None => true end.

(** Modelled from the spec: a range alerts on the values outside it, an
    inverted one on the values inside it. *)
Definition alerts (r : range) (v : Q) : bool :=
  if inverted r then inside r v else negb (inside r v).

(** Modelled from the spec: whether a threshold spec fires on a value.
    An absent spec never fires.  The spec defines the evaluator on
    numbers and on specs of the range syntax; anything else is reported
    here as the library's error. *)
Definition fires (spec : option string) (value : pyval) : res bool :=
  match spec with
  | None => Ok false
  | Some s =>
      match parse_range s, number_of value with
      | Some r, Some v => Ok (alerts r v)
      | None, _ => Fail PynagError
      | _, None => Fail TypeError
      end
  end.

(** Modelled from the spec: pynag's [Plugins.check_threshold].  Critical
    is checked before warning: CRITICAL if the critical spec fires, else
    WARNING if the warning spec fires, else OK. *)
Definition check_threshold (value : pyval) (warning critical : option string)
  : res status :=
  (c <- fires critical value ;;
   if c then Ok CRITICAL
   else w <- fires warning value ;;
        if w then Ok WARNING else Ok OK)%res.

End Pynag.

(** ** The plugin *)

Module Plugin.
Import Py Pynag.

(** The parsed command line, [self[...]] after [super().activate()].
    Optional arguments are [None] when not given. *)
Record config : Type := mkConfig {
  client : string;
  secret : string;
  tenant : string;
  resource : string;
  metric : string;
  dimension : option string;
  dimension_value : option string;
  host : option string;
  timeout : option string;
  warning : option string;
  critical : option string
}.

(** A request as [_call_arm_rest_api] builds it. *)
Record request : Type := mkRequest {
  req_method : string;
  req_url : string;
  req_params : list (string * string);
  req_content : option pyval;
  req_headers : list (string * string);
  req_timeout : option Q
}.

(** What [_call_arm_rest_api] sees of a response: [raise_for_status]
    failed and [CloudError(response)] carries [message]; or [json()]
    decoded a body; or it did not and [text] is used. *)
Inductive response : Type :=
| HttpError (message : string)
| Json (body : pyval)
| Text (text : string).

(** Remote calls, in the order they are made.  Building the service
    principal credentials requests a token. *)
Inductive event : Type :=
| Authenticate (client_id secret tenant : string)
| Send (base_url : string) (r : request).

(** One [add_perfdata] entry. *)
Record perfdatum : Type := mkPerfdatum {
  pd_label : pyval;
  pd_value : pyval;
  pd_uom : option string;
  pd_warn : option string;
  pd_crit : option string
}.

(** The two ways the plugin leaves the process on purpose. *)
Inductive halt : Type :=
| NagiosExit (st : status) (message : string) (perfdata : list perfdatum)
| ParserError (message : string).

Inductive outcome (A : Type) : Type :=
| Return (a : A)
| Raise (e : exn)
| Exit (h : halt).
Arguments Return {A} a.
Arguments Raise {A} e.
Arguments Exit {A} h.

Record pstate : Type := mkState {
  calls : list event;
  perfdata : list perfdatum
}.

Definition initial : pstate := mkState [] [].

Definition M (A : Type) : Type := pstate -> outcome A * pstate.

Definition ret {A} (a : A) : M A := fun s => (Return a, s).

Definition bind {A B} (m : M A) (k : A -> M B) : M B :=
  fun s =>
    match m s with
    | (Return a, s') => k a s'
    | (Raise e, s') => (Raise e, s')
    | (Exit h, s') => (Exit h, s')
    end.

Declare Scope plugin_scope.
Delimit Scope plugin_scope with M.
Notation "x <- m ;; k" := (bind m (fun x => k))
  (at level 61, m at next level, right associativity) : plugin_scope.
Notation "m ;;; k" := (bind m (fun _ => k))
  (at level 61, right associativity) : plugin_scope.

Definition lift {A} (r : res A) : M A :=
  fun s =>
    match r with
    | Ok a => (Return a, s)
    | Fail e => (Raise e, s)
    end.

Definition record (ev : event) : M unit :=
  fun s => (Return tt, mkState (calls s ++ [ev])%list (perfdata s)).

(** [try: m except CloudError as ex: handler(ex.message)]. *)
Definition except_CloudError {A} (m : M A) (handler : string -> M A) : M A :=
  fun s =>
    match m s with
    | (Raise (CloudError message), s') => handler message s'
    | r => r
    end.

(** [self.nagios_exit(code, message)]: prints the message with the
    perfdata added so far and exits with the status code. *)
Definition nagios_exit {A} (st : status) (message : string) : M A :=
  fun s => (Exit (NagiosExit st message (perfdata s)), s).

(** [self.parser.error(message)]: prints the usage error and exits. *)
Definition parser_error {A} (message : string) : M A :=
  fun s => (Exit (ParserError message), s).

(** [self.add_perfdata(label, value, uom=, warn=, crit=)]. *)
Definition add_perfdata (label value : pyval) (uom warn crit : option string)
  : M unit :=
  fun s => (Return tt,
            mkState (calls s)
                    (perfdata s ++ [mkPerfdatum label value uom warn crit])%list).

Definition when (b : bool) (m : M unit) : M unit :=
  if b then m else ret tt.

(** What the libraries and the remote service provide to a run: the
    resource-id validator of msrestazure, the token request (failing
    with the text of its [ClientException]), the transport, and Python's
    [repr]. *)
Record env : Type := mkEnv {
  is_valid_resource_id : string -> bool;
  credentials : string -> string -> string -> option string;
  send : string -> request -> response;
  py_repr : pyval -> string
}.

Definition DEFAULT_AZURE_SERVICE_HOST : string := "management.azure.com".
Definition _AZURE_METRICS_API : string := "2017-05-01-preview".
Definition _AZURE_METRICS_UNIT_SYMBOLS : list (string * string) :=
  [("Percent", "%"); ("Bytes", "B"); ("Seconds", "s")].

(** [bool(x)] for an optional argument. *)
Definition given (x : option string) : bool :=
  match x with
  | Some s => negb (String.eqb s "")
  | None => false
  end.

(** An optional argument inside an f-string. *)
Definition format_opt (x : option string) : string :=
  match x with
  | Some s => s
  | None => "None"
  end.

(** The plugin object once [activate] has run.  The service client is
    represented by the management URL it was configured with. *)
Record plugin : Type := mkPlugin {
  args : config;
  _host : string;
  _timeout : option Q;
  _client : string;
  _metric_definitions : pyval;
  _metric_properties : pyval
}.

Section Run.

Variable E : env.

(** [format(v, '')] inside an f-string. *)
Definition format (v : pyval) : string :=
  match v with
  | PNone => "None"
  | PBool true => "True"
  | PBool false => "False"
  | PInt z => str_of_int z
  | PStr s => s
  | _ => py_repr E v
  end.

Definition _call_arm_rest_api (client path api_version method : string)
  (body : option pyval) (query headers : option (list (string * string)))
  (timeout : option Q) : M pyval :=
  let request :=
    mkRequest (lower_string method) path
              (dict_merge (match query with Some q => q | None => [] end)
                          [("api-version", api_version)])
              body
              (dict_merge (match headers with Some h => h | None => [] end)
                          [("Content-Type", "application/json; charset=utf-8")])
              timeout in
  (record (Send client request) ;;;
   match send E client request with
   | HttpError message => lift (Fail (CloudError message))
   | Json result => ret result
   | Text result => ret (PStr result)
   end)%M.

Definition _get_metric_definitions (cfg : config) (client : string)
  (timeout : option Q) : M pyval :=
  let path := resource cfg ++ "/providers/Microsoft.Insights/metricDefinitions" in
  (metrics <- _call_arm_rest_api client path _AZURE_METRICS_API "GET"
                                 None None None timeout ;;
   lift (getitem metrics "value"))%M.

Fixpoint find_metric (name : string) (definitions : list pyval) : res pyval :=
  match definitions with
  | [] => Ok PNone
  | m :: rest =>
      (n <- getitem m "name" ;;
       v <- getitem n "value" ;;
       if str_eq name v then Ok m else find_metric name rest)%res
  end.

Definition _get_metric_properties (cfg : config) (definitions : pyval)
  : res pyval :=
  (items <- iterate definitions ;; find_metric (metric cfg) items)%res.

Definition _is_dimension_required (properties : pyval) : res pyval :=
  getitem properties "isDimensionRequired".

Definition metric_name (m : pyval) : res pyval :=
  (n <- getitem m "name" ;; getitem n "value")%res.

(** [activate], lines 110-117: the timeout as a non-negative float. *)
Definition parse_timeout (cfg : config) : M (option Q) :=
  match timeout cfg with
  | None => ret None
  | Some t =>
      match float_of_string t with
      | Some q => if Qle_bool 0 q then ret (Some q)
                  else parser_error "Invalid timeout"
      | None => parser_error "Invalid timeout"
      end
  end.

(** [activate], lines 100-104: the checks on the arguments alone. *)
Definition check_arguments (cfg : config) : M unit :=
  (when (negb (is_valid_resource_id E (resource cfg)))
        (parser_error "invalid resource ID") ;;;
   when (negb (Bool.eqb (given (dimension cfg)) (given (dimension_value cfg))))
        (parser_error "--dimension and --dimension-value must be used together"))%M.

(** [activate], lines 119-129: authenticate to ARM. *)
Definition authenticate (cfg : config) (azure_management_url : string)
  : M string :=
  (record (Authenticate (client cfg) (secret cfg) (tenant cfg)) ;;;
   match credentials E (client cfg) (secret cfg) (tenant cfg) with
   | Some message => nagios_exit UNKNOWN message
   | None => ret azure_management_url
   end)%M.

(** [activate], lines 136-142: the requested metric has to be in the
    catalog. *)
Definition resolve_metric (cfg : config) (definitions : pyval) : M pyval :=
  (metric_ids <- lift (items <- iterate definitions ;;
                       comprehension metric_name items)%res ;;
   when (negb (existsb (str_eq (metric cfg)) metric_ids))
        (names <- lift (join ", " metric_ids) ;;
         parser_error ("Unknown metric " ++ metric cfg
                       ++ " for specified resource. "
                       ++ "Supported metrics are: " ++ names)) ;;;
   lift (_get_metric_properties cfg definitions))%M.

(** [activate], lines 144-154: the dimension against the metric's. *)
Definition resolve_dimension (cfg : config) (properties : pyval) : M unit :=
  (dimension_ids <- lift (dims <- dict_get properties "dimensions" (PList []) ;;
                          items <- iterate dims ;;
                          comprehension (fun d => getitem d "value") items)%res ;;
   required <- lift (_is_dimension_required properties) ;;
   when (truthy required
         && match dimension cfg with None => true | Some _ => false end)
        (names <- lift (join ", " dimension_ids) ;;
         parser_error ("Dimension required for metric " ++ metric cfg ++ ". "
                       ++ "Supported dimensions are: " ++ names)) ;;;
   match dimension cfg with
   | Some d =>
       when (negb (existsb (str_eq d) dimension_ids))
            (names <- lift (join ", " dimension_ids) ;;
             parser_error ("Unknown dimension " ++ d ++ " for metric "
                           ++ metric cfg ++ ". "
                           ++ "Supported dimensions are: " ++ names))
   | None => ret tt
   end)%M.

Definition activate (cfg : config) : M plugin :=
  (check_arguments cfg ;;;
   let host := match host cfg with
               | None => DEFAULT_AZURE_SERVICE_HOST
               | Some h => h
               end in
   timeout <- parse_timeout cfg ;;
   client <- authenticate cfg ("https://" ++ host) ;;
   definitions <- except_CloudError
                    (_get_metric_definitions cfg client timeout)
                    (fun message => nagios_exit UNKNOWN message) ;;
   properties <- resolve_metric cfg definitions ;;
   resolve_dimension cfg properties ;;;
   ret (mkPlugin cfg host timeout client definitions properties))%M.

(** The loop of [_get_metric_value] over the reversed points; falling off
    its end returns [None]. *)
Fixpoint latest (aggregation_type : string) (points : list pyval) : res pyval :=
  match points with
  | [] => Ok PNone
  | value :: rest =>
      (present <- contains aggregation_type value ;;
       if present then getitem value aggregation_type
       else latest aggregation_type rest)%res
  end.

Definition metric_query (cfg : config) : list (string * string) :=
  let query := [("metric", metric cfg)] in
  match dimension cfg with
  | Some d =>
      dict_set "$filter" (d ++ " eq '" ++ format_opt (dimension_value cfg) ++ "'")
               query
  | None => query
  end.

Definition _get_metric_value (p : plugin) : M pyval :=
  let cfg := args p in
  let query := metric_query cfg in
  let path := resource cfg ++ "/providers/Microsoft.Insights/metrics/"
              ++ metric cfg in
  (metric_values <-
     except_CloudError
       (body <- _call_arm_rest_api (_client p) path _AZURE_METRICS_API "GET"
                                   None (Some query) None (_timeout p) ;;
        lift (v <- getitem body "value" ;;
              first <- getitem0 v ;;
              getitem first "timeseries")%res)
       (fun message => nagios_exit UNKNOWN message) ;;
   if negb (truthy metric_values) then ret PNone
   else
     aggregation_type <- lift (a <- getitem (_metric_properties p)
                                            "primaryAggregationType" ;;
                               lower a)%res ;;
     lift (series <- getitem0 metric_values ;;
           data <- getitem series "data" ;;
           points <- reversed data ;;
           latest aggregation_type points)%res)%M.

(** [_AZURE_METRICS_UNIT_SYMBOLS.get(unit)]: lists and dicts cannot be
    hashed; any other key that is not in the table gives [None]. *)
Definition unit_symbol (unit : pyval) : res (option string) :=
  match unit with
  | PStr s => Ok (assoc s _AZURE_METRICS_UNIT_SYMBOLS)
  | PList _ | PDict _ => Fail TypeError
  | _ => Ok None
  end.

Definition check_metric (p : plugin) : M unit :=
  let cfg := args p in
  let properties := _metric_properties p in
  (value <- _get_metric_value p ;;
   match value with
   | PNone =>
       let message := "No value available for metric " ++ metric cfg in
       let message := match dimension cfg with
                      | Some d => message ++ " and dimension " ++ d
                      | None => message
                      end in
       nagios_exit UNKNOWN message
   | _ => ret tt
   end ;;;
   status <- lift (check_threshold value (warning cfg) (critical cfg)) ;;
   unit <- lift (u <- getitem properties "unit" ;; unit_symbol u)%res ;;
   label <- lift (metric_name properties) ;;
   add_perfdata label value unit (warning cfg) (critical cfg) ;;;
   text <- lift (n <- getitem properties "name" ;;
                 l <- getitem n "localizedValue" ;;
                 u <- getitem properties "unit" ;;
                 u' <- lower u ;;
                 Ok (format l ++ " " ++ format value ++ " " ++ u'))%res ;;
   nagios_exit status text)%M.

(** The script: [PLUGIN.activate()] then [PLUGIN.check_metric()]. *)
Definition main (cfg : config) : M unit :=
  (p <- activate cfg ;; check_metric p)%M.

Definition run (cfg : config) : outcome unit * pstate := main cfg initial.

End Run.

End Plugin.

(** ** Requests and shapes the statements refer to *)

Module Shapes.
Import Py Pynag Plugin.

Definition json_headers : list (string * string) :=
  [("Content-Type", "application/json; charset=utf-8")].

Definition management_url (cfg : config) : string :=
  "https://" ++ match host cfg with
                | None => DEFAULT_AZURE_SERVICE_HOST
                | Some h => h
                end.

Definition definitions_path (cfg : config) : string :=
  resource cfg ++ "/providers/Microsoft.Insights/metricDefinitions".

Definition metrics_path (cfg : config) : string :=
  resource cfg ++ "/providers/Microsoft.Insights/metrics/" ++ metric cfg.

(** The request [_get_metric_definitions] sends. *)
Definition definitions_request (cfg : config) (tmo : option Q) : request :=
  mkRequest "get" (definitions_path cfg)
            [("api-version", _AZURE_METRICS_API)] None json_headers tmo.

(** The request [_get_metric_value] sends. *)
Definition metrics_request (p : plugin) : request :=
  mkRequest "get" (metrics_path (args p))
            (dict_merge (metric_query (args p)) [("api-version", _AZURE_METRICS_API)])
            None json_headers (_timeout p).

(** The state once [ev] has been made on top of [s]. *)
Definition after (s : pstate) (ev : event) : pstate :=
  mkState (calls s ++ [ev])%list (perfdata s).

(** [t] is what [activate] makes of the timeout argument. *)
Definition valid_timeout (cfg : config) (t : option Q) : Prop :=
  match timeout cfg with
  | None => t = None
  | Some text =>
      exists q, float_of_string text = Some q /\ Qle_bool 0 q = true /\ t = Some q
  end.

(** The run gets as far as the catalog: the arguments pass, the token
    request succeeds and the metric-definitions endpoint answers with a
    body whose [value] iterates as [items]. *)
Definition serves_catalog (E : env) (cfg : config) (tmo : option Q)
  (definitions : pyval) (items : list pyval) : Prop :=
  is_valid_resource_id E (resource cfg) = true /\
  given (dimension cfg) = given (dimension_value cfg) /\
  valid_timeout cfg tmo /\
  credentials E (client cfg) (secret cfg) (tenant cfg) = None /\
  (exists body,
      send E (management_url cfg) (definitions_request cfg tmo) = Json body /\
      getitem body "value" = Ok definitions) /\
  iterate definitions = Ok items.

(** The state of the run once the catalog has been fetched. *)
Definition catalog_state (cfg : config) (tmo : option Q) : pstate :=
  mkState [Authenticate (client cfg) (secret cfg) (tenant cfg);
           Send (management_url cfg) (definitions_request cfg tmo)] [].

(** The message of the UNKNOWN exit for a missing value. *)
Definition no_value_message (cfg : config) : string :=
  match dimension cfg with
  | Some d => "No value available for metric " ++ metric cfg
              ++ " and dimension " ++ d
  | None => "No value available for metric " ++ metric cfg
  end.

(** The time series of a metrics body, [body['value'][0]['timeseries']]. *)
Definition timeseries (body : pyval) : res pyval :=
  (v <- getitem body "value" ;;
   first <- getitem0 v ;;
   getitem first "timeseries")%res.

(** The key the scan looks for. *)
Definition aggregation_key (p : plugin) : res string :=
  (a <- getitem (_metric_properties p) "primaryAggregationType" ;; lower a)%res.

(** What [_get_metric_value] does with a time series that is not empty. *)
Definition scan (p : plugin) (metric_values : pyval) : res pyval :=
  (aggregation_type <- aggregation_key p ;;
   series <- getitem0 metric_values ;;
   data <- getitem series "data" ;;
   points <- reversed data ;;
   latest aggregation_type points)%res.

(** A time series with nothing to report for the metric of [p]: it is
    empty, or no point of its first entry, if it has points at all,
    carries the aggregation key. *)
Inductive no_data (p : plugin) : pyval -> Prop :=
| series_empty : no_data p (PList [])
| key_nowhere (series : pyval) (more points : list pyval) (agg : string) :
    getitem series "data" = Ok (PList points) ->
    getitem (_metric_properties p) "primaryAggregationType" = Ok (PStr agg) ->
    Forall (fun pt => contains (lower_string agg) pt = Ok false) points ->
    no_data p (PList (series :: more)).

(** *** The expected shape of the answers *)












(** A computation that neither raises nor diverges: it exits, or it
    returns a value for which [post] holds. *)
Definition safe {A} (m : M A) (post : A -> Prop) : Prop :=
  forall s,
    (exists h s', m s = (Exit h, s'))
    \/ (exists a s', m s = (Return a, s') /\ post a).

(** *** Shapes for whole runs *)

(** The host the client is set up for. *)
Definition host_of (cfg : config) : string :=
  match host cfg with
  | None => DEFAULT_AZURE_SERVICE_HOST
  | Some h => h
  end.

(** The remote calls of a run that goes all the way, in order: the
    token request, the request for the definitions and the request for
    the values. *)
Definition planned_calls (cfg : config) (tmo : option Q) : list event :=
  [Authenticate (client cfg) (secret cfg) (tenant cfg);
   Send (management_url cfg) (definitions_request cfg tmo);
   Send (management_url cfg)
        (metrics_request (mkPlugin cfg (host_of cfg) tmo (management_url cfg)
                                   PNone PNone))].

(** The ids of the dimensions of a definition, as [activate] lists
    them. *)
Definition dimension_ids (properties : pyval) : res (list pyval) :=
  (dims <- dict_get properties "dimensions" (PList []) ;;
   items <- iterate dims ;;
   comprehension (fun d => getitem d "value") items)%res.

(** What holds of the plugin object [activate] returns for [cfg]. *)
Record activated_ok (E : env) (cfg : config) (p : plugin) : Prop := {
  ok_args : args p = cfg;
  ok_host : _host p = host_of cfg;
  ok_client : _client p = management_url cfg;
  ok_resource : is_valid_resource_id E (resource cfg) = true;
  ok_paired : given (dimension cfg) = given (dimension_value cfg);
  ok_timeout : valid_timeout cfg (_timeout p);
  ok_login : credentials E (client cfg) (secret cfg) (tenant cfg) = None;
  ok_properties :
    exists items, iterate (_metric_definitions p) = Ok items
                  /\ find_metric (metric cfg) items = Ok (_metric_properties p);
  ok_name : metric_name (_metric_properties p) = Ok (PStr (metric cfg));
  ok_required :
    exists required,
      getitem (_metric_properties p) "isDimensionRequired" = Ok required
      /\ (truthy required = true -> dimension cfg <> None);
  ok_dimension :
    exists ids, dimension_ids (_metric_properties p) = Ok ids
                /\ forall d, dimension cfg = Some d -> In (PStr d) ids
}.

(** How a run for [cfg] may end, [x] being the exception or the exit
    and [s] the final state.  The calls made are the first [n] of the
    planned ones.  An exception needs an answer to work on, so at least
    the definitions were requested; a usage error comes from the
    arguments alone or from the catalog; an exit without perfdata is
    UNKNOWN; an exit with perfdata has one entry, for the requested
    metric, made after all three calls. *)
Definition reported (cfg : config) (x : exn + halt) (s : pstate) : Prop :=
  exists tmo n,
    calls s = firstn n (planned_calls cfg tmo)
    /\ match x with
       | inl _ => n = 2%nat \/ n = 3%nat
       | inr (ParserError _) => (n = 0%nat \/ n = 2%nat) /\ perfdata s = []
       | inr (NagiosExit st _ perf) =>
           perf = perfdata s
           /\ ((perf = [] /\ st = UNKNOWN /\ (n = 1 \/ n = 2 \/ n = 3)%nat)
               \/ (n = 3%nat
                   /\ exists v uom,
                       v <> PNone
                       /\ perf = [mkPerfdatum (PStr (metric cfg)) v uom
                                              (warning cfg) (critical cfg)]))
       end.



(** A number a double tells from zero and from infinity: zero itself,
    or of magnitude between 1e-300 and 1e300.  Rounding such a decimal
    to a double keeps its sign and keeps it finite. *)
Definition resolved (q : Q) : bool :=
  Qeq_bool q 0
  || (Qle_bool (1 # 10 ^ 300) q && Qle_bool q (inject_Z (10 ^ 300)))
  || (Qle_bool (- inject_Z (10 ^ 300)) q && Qle_bool q (- (1 # 10 ^ 300))).

(** A timeout argument on which [float] and [float_of_string] agree:
    absent, or a plain decimal literal of a resolved number. *)
Definition plain_timeout (cfg : config) : Prop :=
  match timeout cfg with
  | None => True
  | Some text => exists q, float_of_string text = Some q /\ resolved q = true
  end.


(** The state once the token request has been made. *)
Definition login_state (cfg : config) : pstate :=
  mkState [Authenticate (client cfg) (secret cfg) (tenant cfg)] [].

(** The state once [check_metric] has fetched the value. *)
Definition fetched_state (p : plugin) : pstate :=
  after (catalog_state (args p) (_timeout p)) (Send (_client p) (metrics_request p)).

(** Partial correctness of a step: from a state in [pre], a return
    satisfies [Q] and any other ending satisfies [R]. *)
Definition triple {A} (pre : pstate -> Prop) (m : M A)
  (Q : A -> pstate -> Prop) (R : exn + halt -> pstate -> Prop) : Prop :=
  forall s, pre s ->
    match m s with
    | (Return a, s') => Q a s'
    | (Raise e, s') => R (inl e) s'
    | (Exit h, s') => R (inr h) s'
    end.

End Shapes.

(** ** Sample data *)

Module Samples.
Import Py Pynag Plugin Shapes.

Definition vm : string :=
  "/subscriptions/0000/resourceGroups/rg/providers/Microsoft.Compute/virtualMachines/vm1".

Definition cpu : pyval :=
  PDict [("name", PDict [("value", PStr "Percentage CPU");
                         ("localizedValue", PStr "CPU Percentage")]);
         ("unit", PStr "Percent");
         ("primaryAggregationType", PStr "Average");
         ("isDimensionRequired", PBool false)].

Definition transactions : pyval :=
  PDict [("name", PDict [("value", PStr "Transactions");
                         ("localizedValue", PStr "Transactions")]);
         ("unit", PStr "Count");
         ("primaryAggregationType", PStr "Total");
         ("isDimensionRequired", PBool true);
         ("dimensions", PList [PDict [("value", PStr "ApiName")];
                               PDict [("value", PStr "GeoType")]])].

Definition catalog : response :=
  Json (PDict [("value", PList [cpu; transactions])]).

(** A metrics body with one time series holding [points]. *)
Definition series (points : list pyval) : response :=
  Json (PDict [("value",
                PList [PDict [("timeseries",
                               PList [PDict [("data", PList points)]])]])]).

Definition point (stamp : string) (kinds : list (string * pyval)) : pyval :=
  PDict (("timeStamp", PStr stamp) :: kinds).

(** An environment for the examples: ids under [/subscriptions/] are
    taken as valid, the token request succeeds, a request whose path has
    [/metricDefinitions] is answered [definitions] and any other one
    [metrics], and [repr] is left blank. *)
Definition sample_env (definitions metrics : response) : env :=
  mkEnv (fun rid => String.prefix "/subscriptions/" rid)
        (fun _ _ _ => None)
        (fun _ r => if is_substring "/metricDefinitions" (req_url r)
                    then definitions else metrics)
        (fun _ => "").

(** A command line for [vm] with the default host and no timeout. *)
Definition command (name : string) (dim dim_value warn crit : option string)
  : config :=
  mkConfig "app" "key" "tenant" vm name dim dim_value None None warn crit.

(** The same with a resource id that is not one. *)
Definition bad_command (name : string) (dim dim_value warn crit : option string)
  : config :=
  mkConfig "app" "key" "tenant" "vm1" name dim dim_value None None warn crit.


(** The plugin object [activate] leaves for [command ...] and the
    sample catalog. *)
Definition activated (cfg : config) (properties : pyval) : plugin :=
  mkPlugin cfg DEFAULT_AZURE_SERVICE_HOST None (management_url cfg)
           (PList [cpu; transactions]) properties.

(** Scenario C: the newest point has no average yet, the one before
    has 72. *)
Definition lagging : list pyval :=
  [point "2018-06-01T10:00:00Z" [("average", PInt 72)];
   point "2018-06-01T10:01:00Z" []].

End Samples.

(** ** Properties *)

Import Py Pynag Plugin Shapes Samples.

Unset Implicit Arguments.

(** *** Stepping through the monad *)

Lemma bind_Return {A B} (m : M A) (k : A -> M B) s a s' :
  m s = (Return a, s') -> bind m k s = k a s'.
Proof. intros H. unfold bind. rewrite H. reflexivity. Qed.

Lemma bind_Exit {A B} (m : M A) (k : A -> M B) s h s' :
  m s = (Exit h, s') -> bind m k s = (Exit h, s').
Proof. intros H. unfold bind. rewrite H. reflexivity. Qed.

Lemma bind_Raise {A B} (m : M A) (k : A -> M B) s e s' :
  m s = (Raise e, s') -> bind m k s = (Raise e, s').
Proof. intros H. unfold bind. rewrite H. reflexivity. Qed.

Lemma lift_Ok {A} (r : res A) a s : r = Ok a -> lift r s = (Return a, s).
Proof. intros ->. reflexivity. Qed.

Lemma lift_Fail {A} (r : res A) e s : r = Fail e -> lift r s = (Raise e, s).
Proof. intros ->. reflexivity. Qed.

Lemma join_strings sep (names : list string) :
  join sep (map PStr names) = Ok (String.concat sep names).
Proof.
  induction names as [|n rest IH]; [reflexivity|].
  destruct rest as [|n' rest']; [reflexivity|].
  change (map PStr (n :: n' :: rest')) with (PStr n :: map PStr (n' :: rest')).
  cbn [join]. cbn [map] in *. rewrite IH. reflexivity.
Qed.

Lemma existsb_str_eq name (names : list string) :
  existsb (str_eq name) (map PStr names) = true <-> In name names.
Proof.
  induction names as [|n rest IH]; cbn.
  - split; [discriminate | tauto].
  - rewrite orb_true_iff, IH, String.eqb_eq. intuition congruence.
Qed.

Lemma existsb_str_eq_false name (names : list string) :
  ~ In name names -> existsb (str_eq name) (map PStr names) = false.
Proof.
  intros H. destruct (existsb _ _) eqn:Hx; [|reflexivity].
  apply existsb_str_eq in Hx. contradiction.
Qed.

(** *** Activation *)

Section Activation.

Variable E : env.

Lemma check_arguments_pass cfg s :
  is_valid_resource_id E (resource cfg) = true ->
  given (dimension cfg) = given (dimension_value cfg) ->
  check_arguments E cfg s = (Return tt, s).
Proof.
  intros Hv Hg. unfold check_arguments, bind, when.
  rewrite Hv, Hg, Bool.eqb_reflx. reflexivity.
Qed.

Lemma parse_timeout_valid cfg t s :
  valid_timeout cfg t -> parse_timeout cfg s = (Return t, s).
Proof.
  unfold valid_timeout, parse_timeout. destruct (timeout cfg) as [text|].
  - intros (q & Hq & Hpos & ->). rewrite Hq, Hpos. reflexivity.
  - intros ->. reflexivity.
Qed.

Lemma authenticate_pass cfg url s :
  credentials E (client cfg) (secret cfg) (tenant cfg) = None ->
  authenticate E cfg url s
  = (Return url, after s (Authenticate (client cfg) (secret cfg) (tenant cfg))).
Proof.
  intros Hc. unfold authenticate, bind, record. rewrite Hc. reflexivity.
Qed.

(** [_call_arm_rest_api] with its defaults: the request made and what
    comes back. *)
Lemma call_get client path query tmo s :
  let r := mkRequest "get" path
                     (dict_merge (match query with Some q => q | None => [] end)
                                 [("api-version", _AZURE_METRICS_API)])
                     None json_headers tmo in
  _call_arm_rest_api E client path _AZURE_METRICS_API "GET" None query None tmo s
  = (match send E client r with
     | HttpError message => Raise (CloudError message)
     | Json result => Return result
     | Text result => Return (PStr result)
     end, after s (Send client r)).
Proof.
  intros r. unfold _call_arm_rest_api, bind, record.
  change (lower_string "GET") with "get".
  change (dict_merge [] [("Content-Type", "application/json; charset=utf-8")])
    with json_headers.
  fold r. destruct (send E client r); reflexivity.
Qed.

Lemma definitions_fetched cfg url tmo body definitions s :
  send E url (definitions_request cfg tmo) = Json body ->
  getitem body "value" = Ok definitions ->
  except_CloudError (_get_metric_definitions E cfg url tmo)
                    (fun message => nagios_exit UNKNOWN message) s
  = (Return definitions, after s (Send url (definitions_request cfg tmo))).
Proof.
  intros Hs Hv.
  unfold except_CloudError, _get_metric_definitions, bind.
  rewrite call_get. cbv zeta.
  change (mkRequest "get" _ _ None json_headers tmo)
    with (definitions_request cfg tmo).
  rewrite Hs. unfold lift. rewrite Hv. reflexivity.
Qed.

(** Once the catalog is there, what is left of [activate] is the
    resolution of the metric and of its dimension. *)
Lemma activate_catalog cfg tmo definitions items :
  serves_catalog E cfg tmo definitions items ->
  activate E cfg initial
  = bind (resolve_metric cfg definitions)
         (fun properties =>
            bind (resolve_dimension cfg properties)
                 (fun _ => ret (mkPlugin cfg
                                         (match host cfg with
                                          | None => DEFAULT_AZURE_SERVICE_HOST
                                          | Some h => h
                                          end)
                                         tmo (management_url cfg)
                                         definitions properties)))
         (catalog_state cfg tmo).
Proof.
  intros (Hv & Hg & Ht & Hc & (body & Hs & Hb) & _).
  unfold activate.
  rewrite (bind_Return _ _ _ _ _ (check_arguments_pass cfg initial Hv Hg)).
  rewrite (bind_Return _ _ _ _ _ (parse_timeout_valid cfg tmo initial Ht)).
  fold (management_url cfg).
  rewrite (bind_Return _ _ _ _ _
             (authenticate_pass cfg (management_url cfg) initial Hc)).
  rewrite (bind_Return _ _ _ _ _
             (definitions_fetched cfg _ _ _ _ _ Hs Hb)).
  reflexivity.
Qed.

Lemma comprehension_strings {A} (f : A -> res pyval) items names :
  Forall2 (fun x n => f x = Ok (PStr n)) items names ->
  comprehension f items = Ok (map PStr names).
Proof.
  induction 1 as [|x n items names Hx _ IH]; [reflexivity|].
  cbn. rewrite Hx, IH. reflexivity.
Qed.

Lemma resolve_metric_unknown cfg definitions items names s :
  iterate definitions = Ok items ->
  Forall2 (fun m n => metric_name m = Ok (PStr n)) items names ->
  ~ In (metric cfg) names ->
  resolve_metric cfg definitions s
  = (Exit (ParserError ("Unknown metric " ++ metric cfg
                        ++ " for specified resource. "
                        ++ "Supported metrics are: " ++ String.concat ", " names)),
     s).
Proof.
  intros Hi Hn Hnot. unfold resolve_metric.
  rewrite (bind_Return _ _ s (map PStr names) s).
  2:{ apply lift_Ok. unfold rbind. rewrite Hi.
      apply comprehension_strings, Hn. }
  rewrite (existsb_str_eq_false _ _ Hnot). cbn [negb when].
  erewrite bind_Exit; [reflexivity|].
  erewrite bind_Return by (apply lift_Ok, join_strings).
  reflexivity.
Qed.

Lemma resolve_metric_known cfg definitions items names properties s :
  iterate definitions = Ok items ->
  Forall2 (fun m n => metric_name m = Ok (PStr n)) items names ->
  In (metric cfg) names ->
  find_metric (metric cfg) items = Ok properties ->
  resolve_metric cfg definitions s = (Return properties, s).
Proof.
  intros Hi Hn Hin Hf. unfold resolve_metric.
  rewrite (bind_Return _ _ s (map PStr names) s).
  2:{ apply lift_Ok. unfold rbind. rewrite Hi.
      apply comprehension_strings, Hn. }
  apply existsb_str_eq in Hin. rewrite Hin. cbn [negb when].
  erewrite bind_Return by reflexivity.
  apply lift_Ok. unfold _get_metric_properties, rbind. rewrite Hi. exact Hf.
Qed.

Lemma resolve_dimension_required cfg properties dims dnames required s :
  dict_get properties "dimensions" (PList []) = Ok (PList dims) ->
  Forall2 (fun d n => getitem d "value" = Ok (PStr n)) dims dnames ->
  getitem properties "isDimensionRequired" = Ok required ->
  truthy required = true ->
  dimension cfg = None ->
  resolve_dimension cfg properties s
  = (Exit (ParserError ("Dimension required for metric " ++ metric cfg ++ ". "
                        ++ "Supported dimensions are: "
                        ++ String.concat ", " dnames)), s).
Proof.
  intros Hd Hn Hr Ht Hnone. unfold resolve_dimension.
  rewrite (bind_Return _ _ s (map PStr dnames) s).
  2:{ apply lift_Ok. unfold rbind. rewrite Hd. cbn [iterate].
      apply comprehension_strings, Hn. }
  rewrite (bind_Return _ _ s required s) by (apply lift_Ok, Hr).
  rewrite Ht, Hnone. cbn [andb when].
  erewrite bind_Exit; [reflexivity|].
  erewrite bind_Return by (apply lift_Ok, join_strings).
  reflexivity.
Qed.

End Activation.

(** The two endpoints have different paths. *)
Lemma append_cancel (a x y : string) : a ++ x = a ++ y -> x = y.
Proof.
  induction a as [|c a IH]; cbn; intros H; [exact H|].
  injection H as H. exact (IH H).
Qed.

Lemma definitions_path_not_metrics cfg : definitions_path cfg <> metrics_path cfg.
Proof.
  unfold definitions_path, metrics_path. intros H.
  apply append_cancel in H. cbn in H. discriminate H.
Qed.

(** *** Usage errors raised by [activate] *)

(** C5, as the code has it, for a command line that has parsed (the
    base class takes it only with a warning or a critical threshold):
    when the validator accepts the resource id and exactly one of the
    dimension name and the dimension value is given and not empty, the
    run ends with the usage error that both must be used together, with
    no remote call made; when the validator rejects the resource id the
    usage error is the one for the resource id, whatever the dimension
    arguments are. *)
Theorem dimension_arguments_go_together (E : env) (cfg : config) :
  (is_valid_resource_id E (resource cfg) = true ->
   given (dimension cfg) <> given (dimension_value cfg) ->
   run E cfg
   = (Exit (ParserError "--dimension and --dimension-value must be used together"),
      initial))
  /\ (is_valid_resource_id E (resource cfg) = false ->
      run E cfg = (Exit (ParserError "invalid resource ID"), initial)).
Proof.
  split.
  - intros Hv Hg. unfold run, main, activate, check_arguments, bind, when.
    rewrite Hv.
    destruct (given (dimension cfg)), (given (dimension_value cfg));
      try congruence; reflexivity.
  - intros Hv. unfold run, main, activate, check_arguments, bind, when.
    rewrite Hv. reflexivity.
Qed.

Lemma dimension_arguments_go_together_witness :
  run (sample_env catalog (series []))
      (command "Transactions" (Some "ApiName") None (Some "80") (Some "90"))
  = (Exit (ParserError "--dimension and --dimension-value must be used together"),
     initial)
  /\ run (sample_env catalog (series []))
         (bad_command "Transactions" (Some "ApiName") None (Some "80") (Some "90"))
     = (Exit (ParserError "invalid resource ID"), initial).
Proof.
  split.
  - apply (proj1 (dimension_arguments_go_together _ _)).
    + reflexivity.
    + cbn. discriminate.
  - apply (proj2 (dimension_arguments_go_together _ _)). reflexivity.
Defined.

(** C5 as stated fails on two command lines that parse, each with a
    critical threshold and only the dimension name: with a resource id
    that is not valid the usage error is about the resource id; with an
    empty dimension name the arguments pass and the run goes on to the
    remote calls. *)
Lemma dimension_alone_counterexample :
  (dimension (bad_command "Transactions" (Some "ApiName") None None (Some "70"))
   = Some "ApiName"
   /\ dimension_value (bad_command "Transactions" (Some "ApiName") None
                                   None (Some "70")) = None
   /\ critical (bad_command "Transactions" (Some "ApiName") None None (Some "70"))
      = Some "70"
   /\ run (sample_env catalog (series []))
          (bad_command "Transactions" (Some "ApiName") None None (Some "70"))
      = (Exit (ParserError "invalid resource ID"), initial))
  /\ (dimension (command "Percentage CPU" (Some "") None None (Some "70")) = Some ""
      /\ dimension_value (command "Percentage CPU" (Some "") None None (Some "70"))
         = None
      /\ critical (command "Percentage CPU" (Some "") None None (Some "70"))
         = Some "70"
      /\ run (sample_env catalog (series []))
             (command "Percentage CPU" (Some "") None None (Some "70"))
         = (Exit (ParserError
                    "Unknown dimension  for metric Percentage CPU. Supported dimensions are: "),
            catalog_state (command "Percentage CPU" (Some "") None None (Some "70"))
                          None)).
Proof. repeat split; vm_compute; reflexivity. Qed.

(** C7: when the requested metric is not among the ids of the catalog
    the metric-definitions endpoint returned, the run ends with a usage
    error that lists the ids of the whole catalog, in the order of the
    catalog. *)
Theorem unknown_metric_lists_catalog (E : env) (cfg : config) (tmo : option Q)
  (definitions : pyval) (items : list pyval) (names : list string) :
  serves_catalog E cfg tmo definitions items ->
  Forall2 (fun m n => metric_name m = Ok (PStr n)) items names ->
  ~ In (metric cfg) names ->
  run E cfg
  = (Exit (ParserError ("Unknown metric " ++ metric cfg
                        ++ " for specified resource. "
                        ++ "Supported metrics are: " ++ String.concat ", " names)),
     catalog_state cfg tmo).
Proof.
  intros Hs Hn Hnot. unfold run, main.
  erewrite bind_Exit; [reflexivity|].
  rewrite (activate_catalog E cfg tmo definitions items Hs).
  apply bind_Exit.
  destruct Hs as (_ & _ & _ & _ & _ & Hi).
  exact (resolve_metric_unknown cfg definitions items names _ Hi Hn Hnot).
Qed.

Lemma sample_serves_catalog metrics name dim dim_value warn crit :
  given dim = given dim_value ->
  serves_catalog (sample_env catalog metrics)
                 (command name dim dim_value warn crit) None
                 (PList [cpu; transactions]) [cpu; transactions].
Proof.
  intros Hg. repeat split; try reflexivity; try exact Hg.
  exists (PDict [("value", PList [cpu; transactions])]). split; reflexivity.
Qed.

Lemma sample_names :
  Forall2 (fun m n => metric_name m = Ok (PStr n))
          [cpu; transactions] ["Percentage CPU"; "Transactions"].
Proof. repeat constructor. Qed.

Lemma unknown_metric_lists_catalog_witness :
  run (sample_env catalog (series [])) (command "Disk Reads" None None None None)
  = (Exit (ParserError
             "Unknown metric Disk Reads for specified resource. Supported metrics are: Percentage CPU, Transactions"),
     catalog_state (command "Disk Reads" None None None None) None).
Proof.
  apply (unknown_metric_lists_catalog
           (sample_env catalog (series []))
           (command "Disk Reads" None None None None) None
           (PList [cpu; transactions]) [cpu; transactions]
           ["Percentage CPU"; "Transactions"]).
  - apply sample_serves_catalog. reflexivity.
  - exact sample_names.
  - cbn. intros [H|[H|[]]]; discriminate H.
Defined.

(** C6: when the definition of the requested metric has
    [isDimensionRequired] true and no dimension name is given, the run
    ends with a usage error that lists the dimension ids of the metric,
    and the calls of the run are the token request and the request for
    the definitions: none goes to the metrics endpoint. *)
Theorem required_dimension_missing (E : env) (cfg : config) (tmo : option Q)
  (definitions : pyval) (items : list pyval) (names : list string)
  (properties : pyval) (dims : list pyval) (dnames : list string)
  (required : pyval) :
  serves_catalog E cfg tmo definitions items ->
  Forall2 (fun m n => metric_name m = Ok (PStr n)) items names ->
  In (metric cfg) names ->
  find_metric (metric cfg) items = Ok properties ->
  dict_get properties "dimensions" (PList []) = Ok (PList dims) ->
  Forall2 (fun d n => getitem d "value" = Ok (PStr n)) dims dnames ->
  getitem properties "isDimensionRequired" = Ok required ->
  truthy required = true ->
  dimension cfg = None ->
  run E cfg
  = (Exit (ParserError ("Dimension required for metric " ++ metric cfg ++ ". "
                        ++ "Supported dimensions are: "
                        ++ String.concat ", " dnames)),
     mkState [Authenticate (client cfg) (secret cfg) (tenant cfg);
              Send (management_url cfg) (definitions_request cfg tmo)] [])
  /\ (forall url r, In (Send url r) (calls (snd (run E cfg))) ->
                    req_url r <> metrics_path cfg).
Proof.
  intros Hs Hn Hin Hf Hd Hdn Hr Ht Hnone.
  assert (Hrun : run E cfg
                 = (Exit (ParserError ("Dimension required for metric "
                                       ++ metric cfg ++ ". "
                                       ++ "Supported dimensions are: "
                                       ++ String.concat ", " dnames)),
                    catalog_state cfg tmo)).
  { unfold run, main.
    erewrite bind_Exit; [reflexivity|].
    rewrite (activate_catalog E cfg tmo definitions items Hs).
    destruct Hs as (_ & _ & _ & _ & _ & Hi).
    rewrite (bind_Return _ _ _ _ _
               (resolve_metric_known cfg definitions items names properties _
                                     Hi Hn Hin Hf)).
    apply bind_Exit.
    exact (resolve_dimension_required cfg properties dims dnames required _
                                      Hd Hdn Hr Ht Hnone). }
  split; [exact Hrun|].
  rewrite Hrun. cbn [snd calls catalog_state].
  intros url r [H|[H|[]]]; [discriminate H|].
  injection H as _ <-. cbn [req_url definitions_request].
  apply definitions_path_not_metrics.
Qed.

Lemma required_dimension_missing_witness :
  run (sample_env catalog (series [])) (command "Transactions" None None None None)
  = (Exit (ParserError
             "Dimension required for metric Transactions. Supported dimensions are: ApiName, GeoType"),
     catalog_state (command "Transactions" None None None None) None)
  /\ (forall url r,
         In (Send url r)
            (calls (snd (run (sample_env catalog (series []))
                             (command "Transactions" None None None None)))) ->
         req_url r <> metrics_path (command "Transactions" None None None None)).
Proof.
  apply (required_dimension_missing
           (sample_env catalog (series []))
           (command "Transactions" None None None None) None
           (PList [cpu; transactions]) [cpu; transactions]
           ["Percentage CPU"; "Transactions"]
           transactions
           [PDict [("value", PStr "ApiName")]; PDict [("value", PStr "GeoType")]]
           ["ApiName"; "GeoType"] (PBool true)).
  - apply sample_serves_catalog. reflexivity.
  - exact sample_names.
  - cbn. tauto.
  - reflexivity.
  - reflexivity.
  - repeat constructor.
  - reflexivity.
  - reflexivity.
  - reflexivity.
Defined.

(** *** The value fetch *)

Section Fetch.

Variable E : env.

(** The fetch on a decoded body: one request, then the scan. *)
Lemma get_metric_value_body p s body ts :
  send E (_client p) (metrics_request p) = Json body ->
  timeseries body = Ok ts ->
  _get_metric_value E p s
  = (if negb (truthy ts) then Return PNone
     else match scan p ts with
          | Ok v => Return v
          | Fail e => Raise e
          end,
     after s (Send (_client p) (metrics_request p))).
Proof.
  intros Hs Hts. unfold _get_metric_value, except_CloudError.
  unfold bind at 1 2. rewrite call_get. cbv zeta.
  change (mkRequest "get" _ _ None json_headers (_timeout p))
    with (metrics_request p).
  rewrite Hs. fold (timeseries body). rewrite Hts. cbn [lift].
  destruct (negb (truthy ts)); [reflexivity|].
  unfold scan, aggregation_key, bind, lift.
  destruct (getitem (_metric_properties p) "primaryAggregationType") as [a|e];
    [|reflexivity].
  cbn [rbind]. destruct (lower a) as [k|e]; [|reflexivity].
  cbn [rbind]. destruct (rbind _ _); reflexivity.
Qed.

(** The state after the fetch, whatever the answer: one more request. *)
Lemma get_metric_value_calls p s :
  snd (_get_metric_value E p s) = after s (Send (_client p) (metrics_request p)).
Proof.
  unfold _get_metric_value, except_CloudError.
  unfold bind at 1 2. rewrite call_get. cbv zeta.
  change (mkRequest "get" _ _ None json_headers (_timeout p))
    with (metrics_request p).
  destruct (send E (_client p) (metrics_request p)) as [m|body|t];
    [reflexivity| |].
  - unfold lift at 1.
    destruct (rbind (getitem body "value") _) as [ts|[]]; try reflexivity.
    destruct (negb (truthy ts)); [reflexivity|].
    unfold bind, lift.
    destruct (rbind (getitem (_metric_properties p) _) _); [|reflexivity].
    destruct (rbind _ _); reflexivity.
  - unfold lift at 1.
    destruct (rbind (getitem (PStr t) "value") _) as [ts|[]]; try reflexivity.
    destruct (negb (truthy ts)); [reflexivity|].
    unfold bind, lift.
    destruct (rbind (getitem (_metric_properties p) _) _); [|reflexivity].
    destruct (rbind _ _); reflexivity.
Qed.

Lemma latest_skips k newer rest :
  Forall (fun pt => contains k pt = Ok false) newer ->
  latest k (newer ++ rest)%list = latest k rest.
Proof.
  induction 1 as [|pt newer Hpt _ IH]; [reflexivity|].
  cbn [app latest rbind]. rewrite Hpt. exact IH.
Qed.

Lemma latest_nowhere k points :
  Forall (fun pt => contains k pt = Ok false) points ->
  latest k points = Ok PNone.
Proof.
  intros H. rewrite <- (app_nil_r points). rewrite latest_skips by exact H.
  reflexivity.
Qed.

(** The scan stops at the newest point that carries the key. *)
Lemma scan_latest p series more older pt newer agg v :
  getitem series "data" = Ok (PList (older ++ pt :: newer)%list) ->
  getitem (_metric_properties p) "primaryAggregationType" = Ok (PStr agg) ->
  Forall (fun q => contains (lower_string agg) q = Ok false) newer ->
  contains (lower_string agg) pt = Ok true ->
  getitem pt (lower_string agg) = Ok v ->
  scan p (PList (series :: more)) = Ok v.
Proof.
  intros Hd Ha Hnew Hpt Hv. unfold scan, aggregation_key.
  rewrite Ha. cbn [rbind lower getitem0]. rewrite Hd. cbn [rbind reversed].
  rewrite rev_app_distr. cbn [rev]. rewrite <- app_assoc. cbn [app].
  rewrite latest_skips by (apply Forall_rev, Hnew).
  cbn [latest rbind]. rewrite Hpt. exact Hv.
Qed.

Lemma scan_no_data p series more :
  no_data p (PList (series :: more)) -> scan p (PList (series :: more)) = Ok PNone.
Proof.
  intros H. inversion H as [|series' more' points agg Hd Ha Hall]; subst.
  unfold scan, aggregation_key.
  rewrite Ha. cbn [rbind lower getitem0]. rewrite Hd. cbn [rbind reversed].
  apply latest_nowhere, Forall_rev, Hall.
Qed.

(** [check_metric] when the fetch returns [None]. *)
Lemma check_metric_None p s s' :
  _get_metric_value E p s = (Return PNone, s') ->
  check_metric E p s
  = (Exit (NagiosExit UNKNOWN (no_value_message (args p)) (perfdata s')), s').
Proof.
  intros H. unfold check_metric.
  rewrite (bind_Return _ _ _ _ _ H).
  unfold bind, nagios_exit, no_value_message.
  destruct (dimension (args p)); reflexivity.
Qed.

(** [check_metric] when the fetch returns a value and nothing raises. *)
Lemma check_metric_value p s s' v st name id label unit :
  _get_metric_value E p s = (Return v, s') ->
  v <> PNone ->
  check_threshold v (warning (args p)) (critical (args p)) = Ok st ->
  getitem (_metric_properties p) "name" = Ok name ->
  getitem name "value" = Ok id ->
  getitem name "localizedValue" = Ok label ->
  getitem (_metric_properties p) "unit" = Ok (PStr unit) ->
  let pd := mkPerfdatum id v (assoc unit _AZURE_METRICS_UNIT_SYMBOLS)
                        (warning (args p)) (critical (args p)) in
  check_metric E p s
  = (Exit (NagiosExit st
                      (format E label ++ " " ++ format E v ++ " "
                       ++ lower_string unit)
                      (perfdata s' ++ [pd])%list),
     mkState (calls s') (perfdata s' ++ [pd])%list).
Proof.
  intros H Hv Hst Hn Hid Hl Hu pd. unfold check_metric.
  rewrite (bind_Return _ _ _ _ _ H).
  rewrite (bind_Return _ _ s' tt s') by (destruct v; congruence || reflexivity).
  rewrite (bind_Return _ _ s' st s') by (apply lift_Ok, Hst).
  rewrite (bind_Return _ _ s' (assoc unit _AZURE_METRICS_UNIT_SYMBOLS) s').
  2:{ apply lift_Ok. rewrite Hu. reflexivity. }
  rewrite (bind_Return _ _ s' id s').
  2:{ apply lift_Ok. unfold metric_name. rewrite Hn. exact Hid. }
  unfold bind at 1. unfold add_perfdata at 1.
  erewrite bind_Return.
  2:{ apply lift_Ok. rewrite Hn. cbn [rbind]. rewrite Hl. cbn [rbind].
      rewrite Hu. reflexivity. }
  reflexivity.
Qed.

End Fetch.

(** *** What [check_metric] reports *)

(** C1: when the first time series of the answer has points, the fetch
    returns the value that the newest point carrying the key
    [primaryAggregationType], lowercased, has under that key; newer
    points without the key are passed over.  In scenario C (newest point
    without an average, the one before with average 72, critical spec
    [70]) the value is 72 and the status is CRITICAL. *)
Theorem latest_complete_point :
  (forall E p s body series more older pt newer agg v,
      send E (_client p) (metrics_request p) = Json body ->
      timeseries body = Ok (PList (series :: more)) ->
      getitem series "data" = Ok (PList (older ++ pt :: newer)%list) ->
      getitem (_metric_properties p) "primaryAggregationType" = Ok (PStr agg) ->
      Forall (fun q => contains (lower_string agg) q = Ok false) newer ->
      contains (lower_string agg) pt = Ok true ->
      getitem pt (lower_string agg) = Ok v ->
      _get_metric_value E p s
      = (Return v, after s (Send (_client p) (metrics_request p))))
  /\ (forall E p s,
         send E (_client p) (metrics_request p) = series lagging ->
         _metric_properties p = cpu ->
         critical (args p) = Some "70" ->
         fst (_get_metric_value E p s) = Return (PInt 72)
         /\ exists perf,
             fst (check_metric E p s)
             = Exit (NagiosExit CRITICAL "CPU Percentage 72 percent" perf)).
Proof.
  split.
  - intros E p s body series more older pt newer agg v Hs Hts Hd Ha Hnew Hpt Hv.
    rewrite (get_metric_value_body E p s body _ Hs Hts). cbn [truthy negb].
    rewrite (scan_latest p series more older pt newer agg v Hd Ha Hnew Hpt Hv).
    reflexivity.
  - intros E p s Hs Hp Hc.
    assert (Hget : _get_metric_value E p s
                   = (Return (PInt 72),
                      after s (Send (_client p) (metrics_request p)))).
    { rewrite (get_metric_value_body E p s _ _ Hs eq_refl).
      unfold scan, aggregation_key. rewrite Hp. reflexivity. }
    split; [rewrite Hget; reflexivity|].
    eexists.
    rewrite (check_metric_value E p s _ (PInt 72) CRITICAL
               (PDict [("value", PStr "Percentage CPU");
                       ("localizedValue", PStr "CPU Percentage")])
               (PStr "Percentage CPU") (PStr "CPU Percentage") "Percent" Hget);
      try (rewrite Hp; reflexivity); try discriminate; try reflexivity.
    rewrite Hc. reflexivity.
Qed.

Lemma latest_complete_point_witness :
  _get_metric_value (sample_env catalog (series lagging))
                    (activated (command "Percentage CPU" None None None (Some "70")) cpu)
                    initial
  = (Return (PInt 72),
     after initial
           (Send "https://management.azure.com"
                 (metrics_request
                    (activated (command "Percentage CPU" None None None (Some "70"))
                               cpu))))
  /\ exists perf,
      fst (check_metric (sample_env catalog (series lagging))
                        (activated (command "Percentage CPU" None None None
                                            (Some "70")) cpu)
                        initial)
      = Exit (NagiosExit CRITICAL "CPU Percentage 72 percent" perf).
Proof.
  split.
  - apply (proj1 latest_complete_point
             (sample_env catalog (series lagging))
             (activated (command "Percentage CPU" None None None (Some "70")) cpu)
             initial
             (PDict [("value",
                      PList [PDict [("timeseries",
                                     PList [PDict [("data", PList lagging)]])]])])
             (PDict [("data", PList lagging)]) []
             [] (point "2018-06-01T10:00:00Z" [("average", PInt 72)])
             [point "2018-06-01T10:01:00Z" []] "Average" (PInt 72));
      try reflexivity.
    repeat constructor.
  - apply (proj2 latest_complete_point
             (sample_env catalog (series lagging))
             (activated (command "Percentage CPU" None None None (Some "70")) cpu)
             initial); reflexivity.
Defined.

(** C2: when the time series of the answer is empty, or its first entry
    has no points, or none of its points carries the aggregation key,
    the fetch returns [None] without raising, and the check exits
    UNKNOWN with the message that names the metric and, when a dimension
    name was given, the dimension. *)
Theorem no_data_is_unknown (E : env) (p : plugin) (s : pstate)
  (body ts : pyval) :
  send E (_client p) (metrics_request p) = Json body ->
  timeseries body = Ok ts ->
  no_data p ts ->
  _get_metric_value E p s
  = (Return PNone, after s (Send (_client p) (metrics_request p)))
  /\ check_metric E p s
     = (Exit (NagiosExit UNKNOWN
                         (match dimension (args p) with
                          | Some d => "No value available for metric "
                                      ++ metric (args p) ++ " and dimension " ++ d
                          | None => "No value available for metric "
                                    ++ metric (args p)
                          end)
                         (perfdata s)),
        after s (Send (_client p) (metrics_request p))).
Proof.
  intros Hs Hts Hno.
  assert (Hget : _get_metric_value E p s
                 = (Return PNone,
                    after s (Send (_client p) (metrics_request p)))).
  { rewrite (get_metric_value_body E p s body ts Hs Hts).
    destruct Hno as [|series more points agg Hd Ha Hall]; [reflexivity|].
    cbn [truthy negb].
    rewrite (scan_no_data p series more
               (@key_nowhere p series more points agg Hd Ha Hall)).
    reflexivity. }
  split; [exact Hget|].
  exact (check_metric_None E p s _ Hget).
Qed.

Lemma no_data_is_unknown_witness :
  check_metric (sample_env catalog
                           (series [point "2018-06-01T10:00:00Z" [];
                                    point "2018-06-01T10:01:00Z" []]))
               (activated (command "Transactions" (Some "ApiName") (Some "GetBlob")
                                   None (Some "70")) transactions)
               initial
  = (Exit (NagiosExit UNKNOWN
                      "No value available for metric Transactions and dimension ApiName"
                      []),
     after initial
           (Send "https://management.azure.com"
                 (metrics_request
                    (activated (command "Transactions" (Some "ApiName")
                                        (Some "GetBlob") None (Some "70"))
                               transactions)))).
Proof.
  apply (no_data_is_unknown
           (sample_env catalog (series [point "2018-06-01T10:00:00Z" [];
                                        point "2018-06-01T10:01:00Z" []]))
           (activated (command "Transactions" (Some "ApiName") (Some "GetBlob")
                               None (Some "70")) transactions)
           initial
           (PDict [("value",
                    PList [PDict [("timeseries",
                                   PList [PDict [("data",
                                                  PList [point "2018-06-01T10:00:00Z" [];
                                                         point "2018-06-01T10:01:00Z" []])]])]])])
           (PList [PDict [("data", PList [point "2018-06-01T10:00:00Z" [];
                                          point "2018-06-01T10:01:00Z" []])]])).
  - reflexivity.
  - reflexivity.
  - apply (@key_nowhere _ _ [] [point "2018-06-01T10:00:00Z" [];
                               point "2018-06-01T10:01:00Z" []] "Total").
    + reflexivity.
    + reflexivity.
    + repeat constructor.
Defined.

(** C10: when the newest point that carries the aggregation key maps it
    to null, the fetch returns that null, whatever the older points
    hold, and the check exits UNKNOWN with the message for a missing
    value: the same report, message and perfdata, as for an answer whose
    time series is empty. *)
Theorem null_at_latest_point_is_no_data (E : env) (p : plugin) (s : pstate)
  (body series : pyval) (more older : list pyval) (pt : pyval)
  (newer : list pyval) (agg : string) :
  send E (_client p) (metrics_request p) = Json body ->
  timeseries body = Ok (PList (series :: more)) ->
  getitem series "data" = Ok (PList (older ++ pt :: newer)%list) ->
  getitem (_metric_properties p) "primaryAggregationType" = Ok (PStr agg) ->
  Forall (fun q => contains (lower_string agg) q = Ok false) newer ->
  contains (lower_string agg) pt = Ok true ->
  getitem pt (lower_string agg) = Ok PNone ->
  _get_metric_value E p s
  = (Return PNone, after s (Send (_client p) (metrics_request p)))
  /\ check_metric E p s
     = (Exit (NagiosExit UNKNOWN (no_value_message (args p)) (perfdata s)),
        after s (Send (_client p) (metrics_request p)))
  /\ (forall E' body',
         send E' (_client p) (metrics_request p) = Json body' ->
         timeseries body' = Ok (PList []) ->
         check_metric E' p s = check_metric E p s).
Proof.
  intros Hs Hts Hd Ha Hnew Hpt Hv.
  assert (Hget : _get_metric_value E p s
                 = (Return PNone,
                    after s (Send (_client p) (metrics_request p)))).
  { rewrite (get_metric_value_body E p s body _ Hs Hts). cbn [truthy negb].
    rewrite (scan_latest p series more older pt newer agg PNone
                         Hd Ha Hnew Hpt Hv).
    reflexivity. }
  split; [exact Hget|].
  rewrite (check_metric_None E p s _ Hget).
  split; [reflexivity|].
  intros E' body' Hs' Hts'.
  apply (check_metric_None E' p s).
  rewrite (get_metric_value_body E' p s body' _ Hs' Hts'). reflexivity.
Qed.

Lemma null_at_latest_point_is_no_data_witness :
  check_metric
    (sample_env catalog
                (series [point "2018-06-01T10:00:00Z" [("average", PInt 72)];
                         point "2018-06-01T10:01:00Z" [("average", PNone)];
                         point "2018-06-01T10:02:00Z" []]))
    (activated (command "Percentage CPU" None None None (Some "70")) cpu) initial
  = check_metric (sample_env catalog
                             (Json (PDict [("value",
                                            PList [PDict [("timeseries", PList [])]])])))
                 (activated (command "Percentage CPU" None None None (Some "70")) cpu)
                 initial.
Proof.
  symmetry.
  assert (Hnewer : Forall (fun q => contains (lower_string "Average") q = Ok false)
                          [point "2018-06-01T10:02:00Z" []])
    by (repeat constructor).
  apply (proj2 (proj2
    (null_at_latest_point_is_no_data
       (sample_env catalog
                   (series [point "2018-06-01T10:00:00Z" [("average", PInt 72)];
                            point "2018-06-01T10:01:00Z" [("average", PNone)];
                            point "2018-06-01T10:02:00Z" []]))
       (activated (command "Percentage CPU" None None None (Some "70")) cpu)
       initial
       (PDict [("value",
                PList [PDict [("timeseries",
                               PList [PDict [("data",
                                              PList [point "2018-06-01T10:00:00Z"
                                                           [("average", PInt 72)];
                                                     point "2018-06-01T10:01:00Z"
                                                           [("average", PNone)];
                                                     point "2018-06-01T10:02:00Z" []])]])]])])
       (PDict [("data", PList [point "2018-06-01T10:00:00Z" [("average", PInt 72)];
                               point "2018-06-01T10:01:00Z" [("average", PNone)];
                               point "2018-06-01T10:02:00Z" []])])
       []
       [point "2018-06-01T10:00:00Z" [("average", PInt 72)]]
       (point "2018-06-01T10:01:00Z" [("average", PNone)])
       [point "2018-06-01T10:02:00Z" []]
       "Average"
       eq_refl eq_refl eq_refl eq_refl
       Hnewer eq_refl eq_refl))
    (sample_env catalog
                (Json (PDict [("value", PList [PDict [("timeseries", PList [])]])])))
    (PDict [("value", PList [PDict [("timeseries", PList [])]])])).
  - reflexivity.
  - reflexivity.
Defined.

(** C8: the request to the metrics endpoint carries under [$filter] the
    expression [{dimension} eq '{dimension-value}'] when a dimension
    name is set, and has no [$filter] otherwise. *)
Theorem filter_iff_dimension (E : env) (p : plugin) (s : pstate) :
  calls (snd (_get_metric_value E p s))
  = (calls s ++ [Send (_client p) (metrics_request p)])%list
  /\ req_url (metrics_request p) = metrics_path (args p)
  /\ assoc "$filter" (req_params (metrics_request p))
     = match dimension (args p) with
       | Some d => Some (d ++ " eq '" ++ format_opt (dimension_value (args p)) ++ "'")
       | None => None
       end
  /\ (forall d v, dimension (args p) = Some d ->
                  dimension_value (args p) = Some v ->
                  assoc "$filter" (req_params (metrics_request p))
                  = Some (d ++ " eq '" ++ v ++ "'"))
  /\ (dimension (args p) = None ->
      req_params (metrics_request p)
      = [("metric", metric (args p)); ("api-version", "2017-05-01-preview")]).
Proof.
  split; [rewrite get_metric_value_calls; reflexivity|].
  split; [reflexivity|].
  unfold metrics_request, metric_query. cbn [req_params].
  split; [destruct (dimension (args p)); reflexivity|].
  split.
  - intros d v -> ->. reflexivity.
  - intros ->. reflexivity.
Qed.

Lemma filter_iff_dimension_witness :
  assoc "$filter"
        (req_params
           (metrics_request
              (activated (command "Transactions" (Some "ApiName") (Some "GetBlob")
                                  None None) transactions)))
  = Some "ApiName eq 'GetBlob'"
  /\ req_params
       (metrics_request (activated (command "Percentage CPU" None None None None) cpu))
     = [("metric", "Percentage CPU"); ("api-version", "2017-05-01-preview")].
Proof.
  split.
  - apply (proj1 (proj2 (proj2 (proj2
      (filter_iff_dimension
         (sample_env catalog (series []))
         (activated (command "Transactions" (Some "ApiName") (Some "GetBlob")
                             None None) transactions)
         initial)))) "ApiName" "GetBlob"); reflexivity.
  - apply (proj2 (proj2 (proj2 (proj2
      (filter_iff_dimension
         (sample_env catalog (series []))
         (activated (command "Percentage CPU" None None None None) cpu)
         initial))))). reflexivity.
Defined.

(** [str] of an int reads back, through [float], as that int. *)










(** *** Thresholds *)

(** C4: the range [10:20] does not alert on 10 and on 20 and alerts on
    9.9 and on 20.1; [@10:20] alerts on a number exactly when [10:20]
    does not; the critical spec is looked at first, so the status is
    CRITICAL when it fires, else WARNING when the warning spec fires,
    else OK; an absent spec never fires; and the status [check_metric]
    exits with is the one so computed from the fetched value. *)
Theorem threshold_ranges :
  (fires (Some "10:20") (PInt 10) = Ok false
   /\ fires (Some "10:20") (PInt 20) = Ok false
   /\ fires (Some "10:20") (PFloat (99 # 10)) = Ok true
   /\ fires (Some "10:20") (PFloat (201 # 10)) = Ok true)
  /\ (fires (Some "@10:20") (PInt 10) = Ok true
      /\ fires (Some "@10:20") (PInt 20) = Ok true
      /\ fires (Some "@10:20") (PFloat (99 # 10)) = Ok false
      /\ fires (Some "@10:20") (PFloat (201 # 10)) = Ok false)
  /\ (forall v q, number_of v = Some q ->
        exists b, fires (Some "10:20") v = Ok b
                  /\ fires (Some "@10:20") v = Ok (negb b))
  /\ (forall v warn crit,
        fires crit v = Ok true -> check_threshold v warn crit = Ok CRITICAL)
  /\ (forall v warn crit b,
        fires crit v = Ok false -> fires warn v = Ok b ->
        check_threshold v warn crit = Ok (if b then WARNING else OK))
  /\ (forall v, fires None v = Ok false)
  /\ (forall E p s s' v st name id label unit,
        _get_metric_value E p s = (Return v, s') ->
        v <> PNone ->
        check_threshold v (warning (args p)) (critical (args p)) = Ok st ->
        getitem (_metric_properties p) "name" = Ok name ->
        getitem name "value" = Ok id ->
        getitem name "localizedValue" = Ok label ->
        getitem (_metric_properties p) "unit" = Ok (PStr unit) ->
        exists message perf,
          fst (check_metric E p s) = Exit (NagiosExit st message perf)).
Proof.
  split; [repeat split; reflexivity|].
  split; [repeat split; reflexivity|].
  split.
  { intros v q Hq. unfold fires.
    change (parse_range "10:20") with (Some (mkRange false (Some 10) (Some 20))).
    change (parse_range "@10:20") with (Some (mkRange true (Some 10) (Some 20))).
    rewrite Hq. unfold alerts. cbn [inverted].
    exists (negb (inside (mkRange false (Some 10) (Some 20)) q)).
    split; [reflexivity|]. rewrite negb_involutive. reflexivity. }
  split.
  { intros v warn crit Hc. unfold check_threshold. rewrite Hc. reflexivity. }
  split.
  { intros v warn crit b Hc Hw. unfold check_threshold. rewrite Hc. cbn [rbind].
    rewrite Hw. destruct b; reflexivity. }
  split; [reflexivity|].
  intros E p s s' v st name id label unit Hget Hv Hst Hn Hid Hl Hu.
  do 2 eexists.
  rewrite (check_metric_value E p s s' v st name id label unit
                              Hget Hv Hst Hn Hid Hl Hu).
  reflexivity.
Qed.

Lemma threshold_ranges_witness :
  check_threshold (PInt 15) (Some "10") (Some "20") = Ok WARNING
  /\ check_threshold (PInt 25) (Some "10") (Some "20") = Ok CRITICAL
  /\ exists b, fires (Some "10:20") (PInt 15) = Ok b
               /\ fires (Some "@10:20") (PInt 15) = Ok (negb b).
Proof.
  destruct threshold_ranges as (_ & _ & Hinv & Hcrit & Hwarn & _).
  split; [|split].
  - apply (Hwarn (PInt 15) (Some "10") (Some "20") true); reflexivity.
  - apply (Hcrit (PInt 25) (Some "10") (Some "20")); reflexivity.
  - apply (Hinv (PInt 15) (inject_Z 15)). reflexivity.
Defined.

(** *** Runs that end in a report *)





Lemma safe_nagios_exit {A} st message (post : A -> Prop) :
  safe (nagios_exit st message) post.
Proof. intros s. left. do 2 eexists. reflexivity. Qed.














Section Reports.

Variable E : env.








(** An HTTP error from the metrics endpoint is reported as UNKNOWN. *)
Lemma get_metric_value_http p s message :
  send E (_client p) (metrics_request p) = HttpError message ->
  _get_metric_value E p s
  = (Exit (NagiosExit UNKNOWN message (perfdata s)),
     after s (Send (_client p) (metrics_request p))).
Proof.
  intros Hs. unfold _get_metric_value, except_CloudError.
  unfold bind at 1 2. rewrite call_get. cbv zeta.
  change (mkRequest "get" _ _ None json_headers (_timeout p))
    with (metrics_request p).
  rewrite Hs. reflexivity.
Qed.


End Reports.





(** ** Further properties of the code *)

(** *** The request [_call_arm_rest_api] builds *)





(** *** Failures on the way to the catalog *)

(** A timeout written as a plain decimal literal of a negative number
    that a double tells from zero is refused with the usage error
    [Invalid timeout], before any remote call. *)
Theorem negative_timeout_rejected (E : env) (cfg : config) (text : string)
  (q : Q) :
  is_valid_resource_id E (resource cfg) = true ->
  given (dimension cfg) = given (dimension_value cfg) ->
  timeout cfg = Some text ->
  float_of_string text = Some q ->
  resolved q = true ->
  Qle_bool 0 q = false ->
  run E cfg = (Exit (ParserError "Invalid timeout"), initial).
Proof.
  intros Hv Hg Ht Hq _ Hneg. unfold run, main.
  erewrite bind_Exit; [reflexivity|]. unfold activate.
  rewrite (bind_Return _ _ _ _ _ (check_arguments_pass E cfg initial Hv Hg)).
  apply bind_Exit. unfold parse_timeout. rewrite Ht, Hq, Hneg. reflexivity.
Qed.

Lemma negative_timeout_rejected_witness :
  run (sample_env catalog (series []))
      (mkConfig "app" "key" "tenant" vm "Percentage CPU" None None None
                (Some "-2.5") None (Some "90"))
  = (Exit (ParserError "Invalid timeout"), initial).
Proof.
  apply (negative_timeout_rejected
           (sample_env catalog (series []))
           (mkConfig "app" "key" "tenant" vm "Percentage CPU" None None None
                     (Some "-2.5") None (Some "90"))
           "-2.5" (- (25 # 10))); reflexivity.
Defined.

(** When the token request fails, the run exits UNKNOWN with the text
    of the failure, and the token request is the only call made. *)
Theorem login_failure_is_unknown (E : env) (cfg : config) (tmo : option Q)
  (message : string) :
  is_valid_resource_id E (resource cfg) = true ->
  given (dimension cfg) = given (dimension_value cfg) ->
  valid_timeout cfg tmo ->
  credentials E (client cfg) (secret cfg) (tenant cfg) = Some message ->
  run E cfg
  = (Exit (NagiosExit UNKNOWN message []),
     mkState [Authenticate (client cfg) (secret cfg) (tenant cfg)] []).
Proof.
  intros Hv Hg Ht Hc. unfold run, main.
  erewrite bind_Exit; [reflexivity|]. unfold activate.
  rewrite (bind_Return _ _ _ _ _ (check_arguments_pass E cfg initial Hv Hg)).
  rewrite (bind_Return _ _ _ _ _ (parse_timeout_valid cfg tmo initial Ht)).
  apply bind_Exit. unfold authenticate, bind, record. rewrite Hc. reflexivity.
Qed.

Lemma login_failure_is_unknown_witness :
  run (mkEnv (fun _ => true) (fun _ _ _ => Some "invalid_client")
             (fun _ _ => catalog) (fun _ => ""))
      (command "Percentage CPU" None None None None)
  = (Exit (NagiosExit UNKNOWN "invalid_client" []),
     mkState [Authenticate "app" "key" "tenant"] []).
Proof.
  apply (login_failure_is_unknown
           (mkEnv (fun _ => true) (fun _ _ _ => Some "invalid_client")
                  (fun _ _ => catalog) (fun _ => ""))
           (command "Percentage CPU" None None None None) None "invalid_client");
    reflexivity.
Defined.

Section Catalog.

Variable E : env.

(** [activate] up to the request for the definitions. *)
Lemma activate_request cfg tmo :
  is_valid_resource_id E (resource cfg) = true ->
  given (dimension cfg) = given (dimension_value cfg) ->
  valid_timeout cfg tmo ->
  credentials E (client cfg) (secret cfg) (tenant cfg) = None ->
  activate E cfg initial
  = bind (except_CloudError
            (_get_metric_definitions E cfg (management_url cfg) tmo)
            (fun message => nagios_exit UNKNOWN message))
         (fun definitions =>
            bind (resolve_metric cfg definitions)
                 (fun properties =>
                    bind (resolve_dimension cfg properties)
                         (fun _ => ret (mkPlugin cfg (host_of cfg) tmo
                                                 (management_url cfg)
                                                 definitions properties))))
         (mkState [Authenticate (client cfg) (secret cfg) (tenant cfg)] []).
Proof.
  intros Hv Hg Ht Hc. unfold activate.
  rewrite (bind_Return _ _ _ _ _ (check_arguments_pass E cfg initial Hv Hg)).
  rewrite (bind_Return _ _ _ _ _ (parse_timeout_valid cfg tmo initial Ht)).
  fold (management_url cfg).
  rewrite (bind_Return _ _ _ _ _
             (authenticate_pass E cfg (management_url cfg) initial Hc)).
  reflexivity.
Qed.

(** What the fetch of the definitions gives for each kind of answer. *)
Lemma definitions_answer cfg url tmo s :
  except_CloudError (_get_metric_definitions E cfg url tmo)
                    (fun message => nagios_exit UNKNOWN message) s
  = (match send E url (definitions_request cfg tmo) with
     | HttpError message => Exit (NagiosExit UNKNOWN message (perfdata s))
     | Json body => match getitem body "value" with
                    | Ok d => Return d
                    | Fail e => Raise e
                    end
     | Text _ => Raise TypeError
     end, after s (Send url (definitions_request cfg tmo))).
Proof.
  unfold except_CloudError, _get_metric_definitions, bind.
  rewrite call_get. cbv zeta.
  change (mkRequest "get" _ _ None json_headers tmo)
    with (definitions_request cfg tmo).
  destruct (send E url (definitions_request cfg tmo)) as [m|body|t];
    [reflexivity| |reflexivity].
  unfold lift. destruct body as [| | | | | |kv]; try reflexivity.
  cbn [getitem]. destruct (assoc "value" kv); reflexivity.
Qed.

End Catalog.

(** An HTTP error from the metric-definitions endpoint ends the run
    UNKNOWN with the message of the server; the metrics endpoint is not
    contacted. *)
Theorem definitions_error_is_unknown (E : env) (cfg : config) (tmo : option Q)
  (message : string) :
  is_valid_resource_id E (resource cfg) = true ->
  given (dimension cfg) = given (dimension_value cfg) ->
  valid_timeout cfg tmo ->
  credentials E (client cfg) (secret cfg) (tenant cfg) = None ->
  send E (management_url cfg) (definitions_request cfg tmo) = HttpError message ->
  run E cfg = (Exit (NagiosExit UNKNOWN message []), catalog_state cfg tmo).
Proof.
  intros Hv Hg Ht Hc Hs. unfold run, main.
  erewrite bind_Exit; [reflexivity|].
  rewrite (activate_request E cfg tmo Hv Hg Ht Hc).
  apply bind_Exit. rewrite definitions_answer, Hs. reflexivity.
Qed.

Lemma definitions_error_is_unknown_witness :
  run (sample_env (HttpError "AuthorizationFailed") (series []))
      (command "Percentage CPU" None None None None)
  = (Exit (NagiosExit UNKNOWN "AuthorizationFailed" []),
     catalog_state (command "Percentage CPU" None None None None) None).
Proof.
  apply (definitions_error_is_unknown
           (sample_env (HttpError "AuthorizationFailed") (series []))
           (command "Percentage CPU" None None None None) None
           "AuthorizationFailed"); reflexivity.
Defined.

(** An answer of the metric-definitions endpoint that cannot be
    subscripted with ['value'] is not handled: a JSON object without
    that key ends the run by [KeyError], any other JSON value and a
    body that is not JSON by [TypeError]. *)
Theorem definitions_without_value_raise (E : env) (cfg : config)
  (tmo : option Q) :
  is_valid_resource_id E (resource cfg) = true ->
  given (dimension cfg) = given (dimension_value cfg) ->
  valid_timeout cfg tmo ->
  credentials E (client cfg) (secret cfg) (tenant cfg) = None ->
  (forall kv,
      send E (management_url cfg) (definitions_request cfg tmo) = Json (PDict kv) ->
      assoc "value" kv = None ->
      run E cfg = (Raise KeyError, catalog_state cfg tmo))
  /\ (forall body,
         send E (management_url cfg) (definitions_request cfg tmo) = Json body ->
         (forall kv, body <> PDict kv) ->
         run E cfg = (Raise TypeError, catalog_state cfg tmo))
  /\ (forall text,
         send E (management_url cfg) (definitions_request cfg tmo) = Text text ->
         run E cfg = (Raise TypeError, catalog_state cfg tmo)).
Proof.
  intros Hv Hg Ht Hc.
  assert (Hrun : forall e,
             fst (except_CloudError
                    (_get_metric_definitions E cfg (management_url cfg) tmo)
                    (fun message => nagios_exit UNKNOWN message)
                    (mkState [Authenticate (client cfg) (secret cfg) (tenant cfg)] []))
             = Raise e ->
             run E cfg = (Raise e, catalog_state cfg tmo)).
  { intros e He. unfold run, main.
    erewrite bind_Raise; [reflexivity|].
    rewrite (activate_request E cfg tmo Hv Hg Ht Hc).
    apply bind_Raise. rewrite definitions_answer in *. cbn [fst] in He.
    rewrite He. reflexivity. }
  repeat split.
  - intros kv Hs Hk. apply Hrun. rewrite definitions_answer, Hs.
    cbn [fst getitem]. rewrite Hk. reflexivity.
  - intros body Hs Hb. apply Hrun. rewrite definitions_answer, Hs.
    destruct body; try reflexivity. now elim (Hb entries).
  - intros text Hs. apply Hrun. rewrite definitions_answer, Hs. reflexivity.
Qed.

Lemma definitions_without_value_raise_witness :
  run (sample_env (Json (PDict [("error", PStr "throttled")])) (series []))
      (command "Percentage CPU" None None None None)
  = (Raise KeyError,
     catalog_state (command "Percentage CPU" None None None None) None).
Proof.
  apply (proj1 (definitions_without_value_raise
                  (sample_env (Json (PDict [("error", PStr "throttled")]))
                              (series []))
                  (command "Percentage CPU" None None None None) None
                  eq_refl eq_refl eq_refl eq_refl)
               [("error", PStr "throttled")]); reflexivity.
Defined.

(** *** Resolution of the metric and of its dimension *)

(** [_get_metric_properties] returns the first definition of the
    catalog whose name id is the requested metric, also when a later
    one has the same id, and [None] when there is none. *)
Theorem metric_properties_first_match (cfg : config)
  (before : list pyval) (m : pyval) (rest : list pyval) :
  Forall (fun d => exists v, metric_name d = Ok v /\ str_eq (metric cfg) v = false)
         before ->
  (metric_name m = Ok (PStr (metric cfg)) ->
   _get_metric_properties cfg (PList (before ++ m :: rest)%list) = Ok m)
  /\ _get_metric_properties cfg (PList before) = Ok PNone.
Proof.
  intros Hbefore. unfold _get_metric_properties. cbn [iterate rbind].
  induction Hbefore as [|d before (v & Hd & Hne) _ [IH1 IH2]].
  - split; [|reflexivity].
    intros Hm. cbn [app find_metric]. unfold metric_name in Hm.
    destruct (getitem m "name") as [n|]; [|discriminate Hm].
    cbn [rbind] in *. rewrite Hm. cbn [rbind str_eq].
    rewrite String.eqb_refl. reflexivity.
  - assert (Hstep : forall tail,
               find_metric (metric cfg) (d :: tail)
               = find_metric (metric cfg) tail).
    { intros tail. cbn [find_metric]. unfold metric_name in Hd.
      destruct (getitem d "name") as [n|]; [|discriminate Hd].
      cbn [rbind] in *. rewrite Hd. cbn [rbind]. rewrite Hne. reflexivity. }
    split.
    + intros Hm. cbn [app]. rewrite Hstep. exact (IH1 Hm).
    + rewrite Hstep. exact IH2.
Qed.

Lemma metric_properties_first_match_witness :
  _get_metric_properties (command "Transactions" None None None None)
                         (PList [cpu; transactions; transactions; cpu])
  = Ok transactions.
Proof.
  assert (Hbefore : Forall (fun d => exists v,
                               metric_name d = Ok v
                               /\ str_eq "Transactions" v = false) [cpu]).
  { constructor; [|constructor]. exists (PStr "Percentage CPU"). split; reflexivity. }
  apply (proj1 (metric_properties_first_match
                  (command "Transactions" None None None None)
                  [cpu] transactions [transactions; cpu] Hbefore)).
  reflexivity.
Defined.

Lemma resolve_dimension_unknown cfg properties dims dnames required d s :
  dict_get properties "dimensions" (PList []) = Ok (PList dims) ->
  Forall2 (fun x n => getitem x "value" = Ok (PStr n)) dims dnames ->
  getitem properties "isDimensionRequired" = Ok required ->
  dimension cfg = Some d ->
  ~ In d dnames ->
  resolve_dimension cfg properties s
  = (Exit (ParserError ("Unknown dimension " ++ d ++ " for metric "
                        ++ metric cfg ++ ". "
                        ++ "Supported dimensions are: "
                        ++ String.concat ", " dnames)), s).
Proof.
  intros Hd Hn Hr Hsome Hnot. unfold resolve_dimension.
  rewrite (bind_Return _ _ s (map PStr dnames) s).
  2:{ apply lift_Ok. unfold rbind. rewrite Hd. cbn [iterate].
      apply comprehension_strings, Hn. }
  rewrite (bind_Return _ _ s required s) by (apply lift_Ok, Hr).
  rewrite Hsome. rewrite andb_false_r. cbn [when].
  rewrite (bind_Return _ _ s tt s) by reflexivity.
  rewrite (existsb_str_eq_false _ _ Hnot). cbn [negb when].
  erewrite bind_Return by (apply lift_Ok, join_strings).
  reflexivity.
Qed.

(** A dimension name that is not among the dimension ids of the metric
    ends the run with a usage error that names it and lists the ids, in
    the order of the definition; the metrics endpoint is not contacted.
    This holds whether or not the metric requires a dimension. *)
Theorem unknown_dimension_lists_dimensions (E : env) (cfg : config)
  (tmo : option Q) (definitions : pyval) (items : list pyval)
  (names : list string) (properties : pyval) (dims : list pyval)
  (dnames : list string) (required : pyval) (d : string) :
  serves_catalog E cfg tmo definitions items ->
  Forall2 (fun m n => metric_name m = Ok (PStr n)) items names ->
  In (metric cfg) names ->
  find_metric (metric cfg) items = Ok properties ->
  dict_get properties "dimensions" (PList []) = Ok (PList dims) ->
  Forall2 (fun x n => getitem x "value" = Ok (PStr n)) dims dnames ->
  getitem properties "isDimensionRequired" = Ok required ->
  dimension cfg = Some d ->
  ~ In d dnames ->
  run E cfg
  = (Exit (ParserError ("Unknown dimension " ++ d ++ " for metric "
                        ++ metric cfg ++ ". "
                        ++ "Supported dimensions are: "
                        ++ String.concat ", " dnames)),
     catalog_state cfg tmo).
Proof.
  intros Hs Hn Hin Hf Hd Hdn Hr Hsome Hnot. unfold run, main.
  erewrite bind_Exit; [reflexivity|].
  rewrite (activate_catalog E cfg tmo definitions items Hs).
  destruct Hs as (_ & _ & _ & _ & _ & Hi).
  rewrite (bind_Return _ _ _ _ _
             (resolve_metric_known cfg definitions items names properties _
                                   Hi Hn Hin Hf)).
  apply bind_Exit.
  exact (resolve_dimension_unknown cfg properties dims dnames required d _
                                   Hd Hdn Hr Hsome Hnot).
Qed.

Lemma unknown_dimension_lists_dimensions_witness :
  run (sample_env catalog (series []))
      (command "Transactions" (Some "Tier") (Some "Hot") None None)
  = (Exit (ParserError
             "Unknown dimension Tier for metric Transactions. Supported dimensions are: ApiName, GeoType"),
     catalog_state (command "Transactions" (Some "Tier") (Some "Hot") None None)
                   None).
Proof.
  apply (unknown_dimension_lists_dimensions
           (sample_env catalog (series []))
           (command "Transactions" (Some "Tier") (Some "Hot") None None) None
           (PList [cpu; transactions]) [cpu; transactions]
           ["Percentage CPU"; "Transactions"]
           transactions
           [PDict [("value", PStr "ApiName")]; PDict [("value", PStr "GeoType")]]
           ["ApiName"; "GeoType"] (PBool true) "Tier").
  - apply sample_serves_catalog. reflexivity.
  - exact sample_names.
  - cbn. tauto.
  - reflexivity.
  - reflexivity.
  - repeat constructor.
  - reflexivity.
  - reflexivity.
  - cbn. intros [H|[H|[]]]; discriminate H.
Defined.

(** *** More on the fetch *)

(** An HTTP error from the metrics endpoint ends the check UNKNOWN with
    the message of the server and without a perfdata entry of its own;
    thresholds and metric properties are not looked at. *)
Theorem metrics_error_is_unknown (E : env) (p : plugin) (s : pstate)
  (message : string) :
  send E (_client p) (metrics_request p) = HttpError message ->
  check_metric E p s
  = (Exit (NagiosExit UNKNOWN message (perfdata s)),
     after s (Send (_client p) (metrics_request p))).
Proof.
  intros Hs. unfold check_metric.
  apply bind_Exit, get_metric_value_http, Hs.
Qed.

Lemma metrics_error_is_unknown_witness :
  check_metric (sample_env catalog (HttpError "ResourceNotFound"))
               (activated (command "Percentage CPU" None None (Some "bogus") None)
                          PNone)
               initial
  = (Exit (NagiosExit UNKNOWN "ResourceNotFound" []),
     after initial
           (Send "https://management.azure.com"
                 (metrics_request
                    (activated (command "Percentage CPU" None None (Some "bogus")
                                        None) PNone)))).
Proof.
  apply (metrics_error_is_unknown
           (sample_env catalog (HttpError "ResourceNotFound"))
           (activated (command "Percentage CPU" None None (Some "bogus") None) PNone)
           initial "ResourceNotFound").
  reflexivity.
Defined.

(** Only the first entry of the answer and the first time series in it
    are read: two answers whose first entries have the same first time
    series give the same fetch, whatever else they hold. *)
Theorem only_first_series_is_read (E E' : env) (p : plugin) (s : pstate)
  (kv kv' : list (string * pyval)) (first first' : pyval)
  (others others' : list pyval) (series : pyval) (more more' : list pyval) :
  send E (_client p) (metrics_request p) = Json (PDict kv) ->
  send E' (_client p) (metrics_request p) = Json (PDict kv') ->
  assoc "value" kv = Some (PList (first :: others)) ->
  assoc "value" kv' = Some (PList (first' :: others')) ->
  getitem first "timeseries" = Ok (PList (series :: more)) ->
  getitem first' "timeseries" = Ok (PList (series :: more')) ->
  _get_metric_value E p s = _get_metric_value E' p s.
Proof.
  intros Hs Hs' Hv Hv' Hts Hts'.
  assert (Hbody : timeseries (PDict kv) = Ok (PList (series :: more))).
  { unfold timeseries, getitem at 1. rewrite Hv. exact Hts. }
  assert (Hbody' : timeseries (PDict kv') = Ok (PList (series :: more'))).
  { unfold timeseries, getitem at 1. rewrite Hv'. exact Hts'. }
  rewrite (get_metric_value_body E p s _ _ Hs Hbody).
  rewrite (get_metric_value_body E' p s _ _ Hs' Hbody').
  reflexivity.
Qed.

Lemma only_first_series_is_read_witness :
  _get_metric_value
    (sample_env catalog (series lagging))
    (activated (command "Percentage CPU" None None None None) cpu) initial
  = _get_metric_value
      (sample_env catalog
         (Json (PDict [("cost", PInt 1);
                       ("value",
                        PList [PDict [("timeseries",
                                       PList [PDict [("data", PList lagging)];
                                              PDict [("data", PList [])]])];
                               PDict [("timeseries", PNone)]])])))
      (activated (command "Percentage CPU" None None None None) cpu) initial.
Proof.
  apply (only_first_series_is_read
           (sample_env catalog (series lagging))
           (sample_env catalog
              (Json (PDict [("cost", PInt 1);
                            ("value",
                             PList [PDict [("timeseries",
                                            PList [PDict [("data", PList lagging)];
                                                   PDict [("data", PList [])]])];
                                    PDict [("timeseries", PNone)]])])))
           (activated (command "Percentage CPU" None None None None) cpu) initial
           [("value", PList [PDict [("timeseries",
                                     PList [PDict [("data", PList lagging)]])]])]
           [("cost", PInt 1);
            ("value",
             PList [PDict [("timeseries",
                            PList [PDict [("data", PList lagging)];
                                   PDict [("data", PList [])]])];
                    PDict [("timeseries", PNone)]])]
           (PDict [("timeseries", PList [PDict [("data", PList lagging)]])])
           (PDict [("timeseries",
                    PList [PDict [("data", PList lagging)];
                           PDict [("data", PList [])]])])
           [] [PDict [("timeseries", PNone)]]
           (PDict [("data", PList lagging)])
           [] [PDict [("data", PList [])]]); reflexivity.
Defined.

Lemma getitem_not_cloud v k message : getitem v k <> Fail (CloudError message).
Proof.
  destruct v; cbn [getitem]; try discriminate.
  destruct (assoc k entries); discriminate.
Qed.

Lemma getitem0_not_cloud v message : getitem0 v <> Fail (CloudError message).
Proof.
  destruct v as [| | | |[|c t]|[|x l]|kv]; discriminate.
Qed.

Lemma timeseries_not_cloud body message :
  timeseries body <> Fail (CloudError message).
Proof.
  unfold timeseries.
  destruct (getitem body "value") as [v|e] eqn:Hv; cbn [rbind].
  - destruct (getitem0 v) as [first|e] eqn:Hf; cbn [rbind].
    + apply getitem_not_cloud.
    + rewrite <- Hf. apply getitem0_not_cloud.
  - rewrite <- Hv. apply getitem_not_cloud.
Qed.

(** The fetch, for each kind of answer. *)
Lemma get_metric_value_answer E p s :
  _get_metric_value E p s
  = (match send E (_client p) (metrics_request p) with
     | HttpError message => Exit (NagiosExit UNKNOWN message (perfdata s))
     | Json body =>
         match timeseries body with
         | Ok ts => if negb (truthy ts) then Return PNone
                    else match scan p ts with
                         | Ok v => Return v
                         | Fail e => Raise e
                         end
         | Fail e => Raise e
         end
     | Text _ => Raise TypeError
     end, after s (Send (_client p) (metrics_request p))).
Proof.
  destruct (send E (_client p) (metrics_request p)) as [m|body|t] eqn:Hs.
  - apply get_metric_value_http, Hs.
  - destruct (timeseries body) as [ts|e] eqn:Hts.
    + apply (get_metric_value_body E p s body ts Hs Hts).
    + unfold _get_metric_value, except_CloudError.
      unfold bind at 1 2. rewrite call_get. cbv zeta.
      change (mkRequest "get" _ _ None json_headers (_timeout p))
        with (metrics_request p).
      rewrite Hs. fold (timeseries body). rewrite Hts. cbn [lift].
      destruct e; try reflexivity.
      now elim (timeseries_not_cloud body message).
  - unfold _get_metric_value, except_CloudError.
    unfold bind at 1 2. rewrite call_get. cbv zeta.
    change (mkRequest "get" _ _ None json_headers (_timeout p))
      with (metrics_request p).
    rewrite Hs. reflexivity.
Qed.

Lemma latest_found k points v :
  latest k points = Ok v ->
  v <> PNone ->
  exists newer pt older,
    points = (newer ++ pt :: older)%list
    /\ Forall (fun q => contains k q = Ok false) newer
    /\ contains k pt = Ok true
    /\ getitem pt k = Ok v.
Proof.
  intros Hl Hv. induction points as [|pt points IH]; [cbn in Hl; congruence|].
  cbn [latest] in Hl. destruct (contains k pt) as [[|]|e] eqn:Hc;
    cbn [rbind] in Hl; [| |discriminate Hl].
  - exists [], pt, points. repeat split; [constructor|exact Hc|exact Hl].
  - destruct (IH Hl) as (newer & pt' & older & -> & Hnew & Hpt & Hget).
    exists (pt :: newer), pt', older.
    repeat split; [constructor; assumption|exact Hpt|exact Hget].
Qed.

(** Whenever the fetch returns a value other than [None], the answer
    was JSON and the value is the one that the first point in scan
    order (newest first) carrying the aggregation key has under that
    key: the fetch makes no value up and skips no point that has the
    key. *)
Theorem fetched_value_is_latest (E : env) (p : plugin) (s s' : pstate)
  (v : pyval) :
  _get_metric_value E p s = (Return v, s') ->
  v <> PNone ->
  exists body ts series data k newer pt older,
    send E (_client p) (metrics_request p) = Json body
    /\ timeseries body = Ok ts
    /\ getitem0 ts = Ok series
    /\ getitem series "data" = Ok data
    /\ aggregation_key p = Ok k
    /\ reversed data = Ok (newer ++ pt :: older)%list
    /\ Forall (fun q => contains k q = Ok false) newer
    /\ contains k pt = Ok true
    /\ getitem pt k = Ok v.
Proof.
  intros Hget Hv. rewrite get_metric_value_answer in Hget.
  destruct (send E (_client p) (metrics_request p)) as [m|body|t];
    [discriminate Hget| |discriminate Hget].
  destruct (timeseries body) as [ts|e] eqn:Hts; [|discriminate Hget].
  destruct (negb (truthy ts)); [congruence|].
  destruct (scan p ts) as [v'|e] eqn:Hscan; [|discriminate Hget].
  injection Hget as -> _.
  unfold scan in Hscan.
  destruct (aggregation_key p) as [k|] eqn:Hk; [|discriminate Hscan].
  cbn [rbind] in Hscan.
  destruct (getitem0 ts) as [series|] eqn:Hser; [|discriminate Hscan].
  cbn [rbind] in Hscan.
  destruct (getitem series "data") as [data|] eqn:Hd; [|discriminate Hscan].
  cbn [rbind] in Hscan.
  destruct (reversed data) as [points|] eqn:Hrev; [|discriminate Hscan].
  cbn [rbind] in Hscan.
  destruct (latest_found k points v Hscan Hv)
    as (newer & pt & older & -> & Hnew & Hpt & Hval).
  exists body, ts, series, data, k, newer, pt, older.
  repeat split; assumption || reflexivity.
Qed.

Lemma fetched_value_is_latest_witness :
  exists body ts entry data k newer pt older,
    send (sample_env catalog (series lagging)) "https://management.azure.com"
         (metrics_request
            (activated (command "Percentage CPU" None None None None) cpu))
    = Json body
    /\ timeseries body = Ok ts
    /\ getitem0 ts = Ok entry
    /\ getitem entry "data" = Ok data
    /\ aggregation_key (activated (command "Percentage CPU" None None None None)
                                  cpu) = Ok k
    /\ reversed data = Ok (newer ++ pt :: older)%list
    /\ Forall (fun q => contains k q = Ok false) newer
    /\ contains k pt = Ok true
    /\ getitem pt k = Ok (PInt 72).
Proof.
  apply (fetched_value_is_latest
           (sample_env catalog (series lagging))
           (activated (command "Percentage CPU" None None None None) cpu)
           initial
           (after initial
                  (Send "https://management.azure.com"
                        (metrics_request
                           (activated (command "Percentage CPU" None None None None)
                                      cpu))))
           (PInt 72)).
  - reflexivity.
  - discriminate.
Defined.

(** *** Whole runs *)

Lemma triple_bind {A B} s0 s1 (m : M A) (k : A -> M B) (F : A -> Prop)
  (Q : B -> pstate -> Prop) (R : exn + halt -> pstate -> Prop) :
  triple (eq s0) m (fun a s => s = s1 /\ F a) R ->
  (forall a, F a -> triple (eq s1) (k a) Q R) ->
  triple (eq s0) (bind m k) Q R.
Proof.
  intros Hm Hk s <-. unfold bind. specialize (Hm s0 eq_refl).
  destruct (m s0) as [[a|e|h] s']; [|exact Hm|exact Hm].
  destruct Hm as [-> Ha]. exact (Hk a Ha s1 eq_refl).
Qed.

Lemma triple_ret {A} s0 (a : A) (R : exn + halt -> pstate -> Prop) :
  triple (eq s0) (ret a) (fun a' s => s = s0 /\ a' = a) R.
Proof. intros s <-. split; reflexivity. Qed.

Lemma triple_lift {A} s0 (r : res A) (R : exn + halt -> pstate -> Prop) :
  (forall e, R (inl e) s0) ->
  triple (eq s0) (lift r) (fun a s => s = s0 /\ r = Ok a) R.
Proof.
  intros HR s <-. unfold lift. destruct r as [a|e]; [split; reflexivity|apply HR].
Qed.

Lemma triple_weaken {A} s0 (m : M A) (Q Q' : A -> pstate -> Prop)
  (R : exn + halt -> pstate -> Prop) :
  triple (eq s0) m Q R -> (forall a s, Q a s -> Q' a s) ->
  triple (eq s0) m Q' R.
Proof.
  intros Hm HQ s <-. specialize (Hm s0 eq_refl).
  destruct (m s0) as [[a|e|h] s']; [apply HQ, Hm|exact Hm|exact Hm].
Qed.

(** A usage error with enumerated choices never returns. *)
Lemma triple_enumerated s0 (ids : list pyval) (message : string -> string)
  (R : exn + halt -> pstate -> Prop) :
  (forall e, R (inl e) s0) ->
  (forall text, R (inr (ParserError text)) s0) ->
  triple (eq s0)
         (bind (lift (join ", " ids)) (fun names => parser_error (message names)))
         (fun (_ : unit) _ => False) R.
Proof.
  intros Hraise Husage s <-. unfold bind, lift, parser_error.
  destruct (join ", " ids); [apply Husage|apply Hraise].
Qed.

Lemma triple_when s0 b (m : M unit) (R : exn + halt -> pstate -> Prop) :
  (b = true -> triple (eq s0) m (fun _ _ => False) R) ->
  triple (eq s0) (when b m) (fun _ s => s = s0 /\ b = false) R.
Proof.
  intros Hm. destruct b; cbn [when].
  - apply (triple_weaken _ _ _ _ _ (Hm eq_refl)). intros _ _ [].
  - intros s <-. split; reflexivity.
Qed.

Lemma existsb_str_eq_In d (ids : list pyval) :
  existsb (str_eq d) ids = true -> In (PStr d) ids.
Proof.
  intros H. apply existsb_exists in H as (x & Hin & Hx).
  destruct x; try discriminate Hx. cbn [str_eq] in Hx.
  apply String.eqb_eq in Hx. subst. exact Hin.
Qed.

(** Once every definition has a name id and the requested one is among
    them, the definition found carries it. *)
Lemma find_metric_name name items ids m :
  comprehension metric_name items = Ok ids ->
  existsb (str_eq name) ids = true ->
  find_metric name items = Ok m ->
  metric_name m = Ok (PStr name).
Proof.
  revert ids. induction items as [|d items IH]; intros ids Hc Hin Hf.
  - cbn in Hc. injection Hc as <-. discriminate Hin.
  - cbn [comprehension] in Hc.
    destruct (metric_name d) as [v|] eqn:Hd; [|discriminate Hc].
    destruct (comprehension metric_name items) as [vs|]; [|discriminate Hc].
    injection Hc as <-. cbn [existsb] in Hin.
    cbn [find_metric] in Hf. unfold metric_name in Hd.
    destruct (getitem d "name") as [n|] eqn:Hn; [|discriminate Hd].
    cbn [rbind] in Hd, Hf. rewrite Hd in Hf. cbn [rbind] in Hf.
    destruct (str_eq name v) eqn:Hv.
    + injection Hf as <-. unfold metric_name. rewrite Hn. cbn [rbind].
      destruct v; try discriminate Hv. cbn [str_eq] in Hv.
      apply String.eqb_eq in Hv. subst. exact Hd.
    + exact (IH vs eq_refl Hin Hf).
Qed.

Section Endings.

Variable E : env.
Variable cfg : config.

Lemma reported_usage_initial text :
  reported cfg (inr (ParserError text)) initial.
Proof. exists None, 0%nat. repeat split. left. reflexivity. Qed.

Lemma reported_unknown_login message :
  reported cfg (inr (NagiosExit UNKNOWN message [])) (login_state cfg).
Proof.
  exists None, 1%nat. repeat split. left. repeat split. left. reflexivity.
Qed.

Lemma reported_catalog_raise tmo e : reported cfg (inl e) (catalog_state cfg tmo).
Proof. exists tmo, 2%nat. split; [reflexivity|left; reflexivity]. Qed.

Lemma reported_catalog_usage tmo text :
  reported cfg (inr (ParserError text)) (catalog_state cfg tmo).
Proof. exists tmo, 2%nat. repeat split. right. reflexivity. Qed.

Lemma reported_catalog_unknown tmo message :
  reported cfg (inr (NagiosExit UNKNOWN message [])) (catalog_state cfg tmo).
Proof.
  exists tmo, 2%nat. repeat split. left. repeat split. right. left. reflexivity.
Qed.

Lemma fetched_calls p :
  args p = cfg ->
  _client p = management_url cfg ->
  calls (after (catalog_state cfg (_timeout p))
               (Send (_client p) (metrics_request p)))
  = firstn 3 (planned_calls cfg (_timeout p)).
Proof. intros <- ->. reflexivity. Qed.

Lemma check_arguments_spec :
  triple (eq initial) (check_arguments E cfg)
         (fun _ s => s = initial
                     /\ is_valid_resource_id E (resource cfg) = true
                        /\ given (dimension cfg) = given (dimension_value cfg))
         (reported cfg).
Proof.
  intros s <-. unfold check_arguments, bind, when.
  destruct (is_valid_resource_id E (resource cfg)); cbn [negb];
    [|apply reported_usage_initial].
  cbn [ret].
  destruct (Bool.eqb (given (dimension cfg)) (given (dimension_value cfg))) eqn:Hg;
    cbn [negb]; [|apply reported_usage_initial].
  repeat split. apply eqb_prop, Hg.
Qed.

Lemma parse_timeout_spec :
  triple (eq initial) (parse_timeout cfg)
         (fun t s => s = initial /\ valid_timeout cfg t) (reported cfg).
Proof.
  intros s <-. unfold parse_timeout, valid_timeout.
  destruct (timeout cfg) as [text|]; [|split; reflexivity].
  destruct (float_of_string text) as [q|]; [|apply reported_usage_initial].
  destruct (Qle_bool 0 q) eqn:Hq; [|apply reported_usage_initial].
  split; [reflexivity|]. exists q. repeat split. exact Hq.
Qed.

Lemma authenticate_spec url :
  triple (eq initial) (authenticate E cfg url)
         (fun c s => s = (login_state cfg)
                     /\ c = url
                        /\ credentials E (client cfg) (secret cfg) (tenant cfg)
                           = None)
         (reported cfg).
Proof.
  intros s <-. unfold authenticate, bind, record.
  destruct (credentials E (client cfg) (secret cfg) (tenant cfg)) as [message|].
  - apply reported_unknown_login.
  - repeat split.
Qed.

Lemma definitions_spec tmo :
  triple (eq (login_state cfg))
         (except_CloudError (_get_metric_definitions E cfg (management_url cfg) tmo)
                            (fun message => nagios_exit UNKNOWN message))
         (fun _ s => s = catalog_state cfg tmo /\ True) (reported cfg).
Proof.
  intros s <-. rewrite definitions_answer.
  destruct (send E (management_url cfg) (definitions_request cfg tmo))
    as [message|body|text].
  - apply reported_catalog_unknown.
  - destruct (getitem body "value"); [split; [reflexivity|trivial]|].
    apply reported_catalog_raise.
  - apply reported_catalog_raise.
Qed.

Lemma resolve_metric_spec tmo definitions :
  triple (eq (catalog_state cfg tmo)) (resolve_metric cfg definitions)
         (fun properties s =>
            s = catalog_state cfg tmo
            /\ (exists items, iterate definitions = Ok items
                              /\ find_metric (metric cfg) items = Ok properties)
               /\ metric_name properties = Ok (PStr (metric cfg)))
         (reported cfg).
Proof.
  unfold resolve_metric.
  apply (triple_bind _ (catalog_state cfg tmo) _ _
           (fun ids => (items <- iterate definitions ;;
                        comprehension metric_name items)%res = Ok ids)).
  { apply triple_lift. apply reported_catalog_raise. }
  intros ids Hids.
  apply (triple_bind _ (catalog_state cfg tmo) _ _
           (fun _ => negb (existsb (str_eq (metric cfg)) ids) = false)).
  { apply triple_when. intros _.
    apply triple_enumerated;
      [apply reported_catalog_raise|apply reported_catalog_usage]. }
  intros _ Hin. apply negb_false_iff in Hin.
  apply (triple_weaken _ _ _ _ _
           (triple_lift _ _ _ (reported_catalog_raise tmo))).
  intros properties s [-> Hp]. split; [reflexivity|].
  unfold _get_metric_properties in Hp.
  destruct (iterate definitions) as [items|]; [|discriminate Hp].
  cbn [rbind] in Hp, Hids. split.
  - exists items. split; [reflexivity|exact Hp].
  - exact (find_metric_name _ _ _ _ Hids Hin Hp).
Qed.

Lemma resolve_dimension_spec tmo properties :
  triple (eq (catalog_state cfg tmo)) (resolve_dimension cfg properties)
         (fun _ s =>
            s = catalog_state cfg tmo
            /\ (exists required,
                   getitem properties "isDimensionRequired" = Ok required
                   /\ (truthy required = true -> dimension cfg <> None))
               /\ (exists ids, dimension_ids properties = Ok ids
                               /\ forall d, dimension cfg = Some d ->
                                            In (PStr d) ids))
         (reported cfg).
Proof.
  unfold resolve_dimension.
  apply (triple_bind _ (catalog_state cfg tmo) _ _
           (fun ids => dimension_ids properties = Ok ids)).
  { apply triple_lift. apply reported_catalog_raise. }
  intros ids Hids.
  apply (triple_bind _ (catalog_state cfg tmo) _ _
           (fun required => _is_dimension_required properties = Ok required)).
  { apply triple_lift. apply reported_catalog_raise. }
  intros required Hreq.
  apply (triple_bind _ (catalog_state cfg tmo) _ _
           (fun _ => truthy required
                     && match dimension cfg with
                        | None => true
                        | Some _ => false
                        end = false)).
  { apply triple_when. intros _.
    apply triple_enumerated;
      [apply reported_catalog_raise|apply reported_catalog_usage]. }
  intros _ Hneed.
  assert (Hrequired : exists required',
             getitem properties "isDimensionRequired" = Ok required'
             /\ (truthy required' = true -> dimension cfg <> None)).
  { exists required. split; [exact Hreq|].
    intros Ht Hnone. rewrite Ht, Hnone in Hneed. discriminate Hneed. }
  destruct (dimension cfg) as [d|] eqn:Hd.
  - apply (triple_weaken _ _ _ _ _
             (triple_when _ _ _ _
                (fun _ => triple_enumerated _ _ _ _
                            (reported_catalog_raise tmo)
                            (reported_catalog_usage tmo)))).
    intros _ s [-> Hin]. apply negb_false_iff in Hin.
    split; [reflexivity|]. split; [exact Hrequired|].
    exists ids. split; [exact Hids|].
    intros d' [= <-]. apply existsb_str_eq_In, Hin.
  - apply (triple_weaken _ _ _ _ _ (triple_ret _ tt _)).
    intros _ s [-> _]. split; [reflexivity|]. split; [exact Hrequired|].
    exists ids. split; [exact Hids|]. intros d' [=].
Qed.

(** [activate] from the initial state: what holds when it returns, and
    how it may end otherwise. *)
Lemma activate_spec :
  triple (eq initial) (activate E cfg)
         (fun p s => s = catalog_state cfg (_timeout p) /\ activated_ok E cfg p)
         (reported cfg).
Proof.
  unfold activate.
  apply (triple_bind _ _ _ _ _ _ _ check_arguments_spec). intros _ [Hv Hg].
  apply (triple_bind _ _ _ _ _ _ _ parse_timeout_spec). intros tmo Ht.
  fold (host_of cfg). fold (management_url cfg).
  apply (triple_bind _ _ _ _ _ _ _ (authenticate_spec (management_url cfg))).
  intros c [-> Hc].
  apply (triple_bind _ _ _ _ _ _ _ (definitions_spec tmo)). intros definitions _.
  apply (triple_bind _ _ _ _ _ _ _ (resolve_metric_spec tmo definitions)).
  intros properties [Hitems Hname].
  apply (triple_bind _ _ _ _ _ _ _ (resolve_dimension_spec tmo properties)).
  intros _ [Hreq Hdim].
  apply (triple_weaken _ _ _ _ _ (triple_ret _ _ _)).
  intros p s [-> ->]. split; [reflexivity|].
  constructor; try assumption; reflexivity.
Qed.

End Endings.

Section Reporting.

Variable E : env.
Variable p : plugin.

Hypothesis Hclient : _client p = management_url (args p).

Lemma reported_fetched_raise e : reported (args p) (inl e) (fetched_state p).
Proof.
  exists (_timeout p), 3%nat. split; [|right; reflexivity].
  apply fetched_calls; [reflexivity|exact Hclient].
Qed.

Lemma reported_fetched_unknown message :
  reported (args p) (inr (NagiosExit UNKNOWN message [])) (fetched_state p).
Proof.
  exists (_timeout p), 3%nat. split.
  - apply fetched_calls; [reflexivity|exact Hclient].
  - split; [reflexivity|]. left. repeat split. right. right. reflexivity.
Qed.

Lemma reported_final_raise e pd :
  reported (args p) (inl e) (mkState (calls (fetched_state p)) [pd]).
Proof.
  exists (_timeout p), 3%nat. split; [|right; reflexivity].
  apply fetched_calls; [reflexivity|exact Hclient].
Qed.

Lemma reported_final_exit st text v uom :
  v <> PNone ->
  reported (args p)
           (inr (NagiosExit st text
                            [mkPerfdatum (PStr (metric (args p))) v uom
                                         (warning (args p)) (critical (args p))]))
           (mkState (calls (fetched_state p))
                    [mkPerfdatum (PStr (metric (args p))) v uom
                                 (warning (args p)) (critical (args p))]).
Proof.
  intros Hv. exists (_timeout p), 3%nat. split.
  - apply fetched_calls; [reflexivity|exact Hclient].
  - split; [reflexivity|]. right. split; [reflexivity|].
    exists v, uom. split; [exact Hv|reflexivity].
Qed.

(** [check_metric] after [activate]: it does not return, and it ends in
    one of the reported ways. *)
Lemma check_metric_spec :
  metric_name (_metric_properties p) = Ok (PStr (metric (args p))) ->
  triple (eq (catalog_state (args p) (_timeout p))) (check_metric E p)
         (fun _ _ => False) (reported (args p)).
Proof.
  intros Hname. unfold check_metric.
  apply (triple_bind _ (fetched_state p) _ _ (fun _ => True)).
  { intros s <-. rewrite get_metric_value_answer. fold (fetched_state p).
    destruct (send E (_client p) (metrics_request p)) as [message|body|text].
    - apply reported_fetched_unknown.
    - destruct (timeseries body) as [ts|e]; [|apply reported_fetched_raise].
      destruct (negb (truthy ts)); [split; [reflexivity|trivial]|].
      destruct (scan p ts); [split; [reflexivity|trivial]|].
      apply reported_fetched_raise.
    - apply reported_fetched_raise. }
  intros v _.
  apply (triple_bind _ (fetched_state p) _ _ (fun _ => v <> PNone)).
  { intros s <-.
    destruct v; try (split; [reflexivity|discriminate]).
    apply reported_fetched_unknown. }
  intros _ Hv.
  apply (triple_bind _ (fetched_state p) _ _ (fun _ => True)).
  { apply (triple_weaken _ _ _ _ _ (triple_lift _ _ _ reported_fetched_raise)).
    intros st s [-> _]. split; [reflexivity|trivial]. }
  intros st _.
  apply (triple_bind _ (fetched_state p) _ _ (fun _ => True)).
  { apply (triple_weaken _ _ _ _ _ (triple_lift _ _ _ reported_fetched_raise)).
    intros uom s [-> _]. split; [reflexivity|trivial]. }
  intros uom _.
  apply (triple_bind _ (fetched_state p) _ _
           (fun label => label = PStr (metric (args p)))).
  { apply (triple_weaken _ _ _ _ _ (triple_lift _ _ _ reported_fetched_raise)).
    intros label s [-> Hl]. split; [reflexivity|]. congruence. }
  intros label ->.
  apply (triple_bind _ (mkState (calls (fetched_state p))
                                [mkPerfdatum (PStr (metric (args p))) v uom
                                             (warning (args p)) (critical (args p))])
                     _ _ (fun _ => True)).
  { intros s <-. split; reflexivity. }
  intros _ _.
  apply (triple_bind _ (mkState (calls (fetched_state p))
                                [mkPerfdatum (PStr (metric (args p))) v uom
                                             (warning (args p)) (critical (args p))])
                     _ _ (fun _ => True)).
  { apply (triple_weaken _ _ _ _ _
             (triple_lift _ _ _ (fun e => reported_final_raise e _))).
    intros text s [-> _]. split; [reflexivity|trivial]. }
  intros text _ s <-. apply reported_final_exit, Hv.
Qed.

End Reporting.

(** Every run ends in one of the reported ways, and never by a plain
    return. *)
Lemma run_reported E cfg :
  match run E cfg with
  | (Return _, _) => False
  | (Raise e, s) => reported cfg (inl e) s
  | (Exit h, s) => reported cfg (inr h) s
  end.
Proof.
  pose proof (activate_spec E cfg initial eq_refl) as Ha.
  unfold run, main, bind.
  destruct (activate E cfg initial) as [[p|e|h] s]; [|exact Ha|exact Ha].
  destruct Ha as [-> Hok].
  pose proof (ok_args Hok) as Hargs.
  pose proof (ok_client Hok) as Hclient.
  pose proof (ok_name Hok) as Hname.
  subst cfg.
  exact (check_metric_spec E p Hclient Hname _ eq_refl).
Qed.

(** Whenever [activate] returns for arguments whose timeout is absent
    or a plain decimal literal, the plugin object it leaves is set up
    for the arguments: the resource id is valid, the dimension
    arguments are paired, the timeout is a non-negative number, the
    client is set up for the given host, or for the default one, the
    metric properties are those of the first definition of the catalog
    named as the requested metric, a dimension name is there when the
    metric requires one, and it is one of the dimensions of the metric;
    and exactly the token request and the request for the definitions
    were made. *)
Theorem activate_postcondition (E : env) (cfg : config) (p : plugin)
  (s : pstate) :
  plain_timeout cfg ->
  activate E cfg initial = (Return p, s) ->
  activated_ok E cfg p
  /\ s = mkState [Authenticate (client cfg) (secret cfg) (tenant cfg);
                  Send (management_url cfg)
                       (definitions_request cfg (_timeout p))] [].
Proof.
  intros _ H. pose proof (activate_spec E cfg initial eq_refl) as Ha.
  rewrite H in Ha. destruct Ha as [-> Hok]. split; [exact Hok|reflexivity].
Qed.

Lemma activate_postcondition_witness :
  activated_ok (sample_env catalog (series []))
               (command "Transactions" (Some "ApiName") (Some "GetBlob") None None)
               (activated (command "Transactions" (Some "ApiName") (Some "GetBlob")
                                   None None) transactions).
Proof.
  apply (activate_postcondition
           (sample_env catalog (series []))
           (command "Transactions" (Some "ApiName") (Some "GetBlob") None None)
           (activated (command "Transactions" (Some "ApiName") (Some "GetBlob")
                               None None) transactions)
           (catalog_state (command "Transactions" (Some "ApiName") (Some "GetBlob")
                                   None None) None)).
  - exact I.
  - reflexivity.
Defined.

(** A run never ends by a plain return, and its report and perfdata go
    together: an exit without perfdata is UNKNOWN, a usage error has
    none, and an exit with perfdata has exactly one entry, labelled
    with the requested metric, holding a value that is not [None] and
    the warning and critical specs as given. *)
Theorem perfdata_goes_with_value (E : env) (cfg : config) :
  (forall a s, run E cfg <> (Return a, s))
  /\ (forall st message perf s,
         run E cfg = (Exit (NagiosExit st message perf), s) ->
         perf = perfdata s
         /\ ((perf = [] /\ st = UNKNOWN)
             \/ exists v uom,
                 v <> PNone
                 /\ perf = [mkPerfdatum (PStr (metric cfg)) v uom
                                        (warning cfg) (critical cfg)]))
  /\ (forall message s,
         run E cfg = (Exit (ParserError message), s) -> perfdata s = []).
Proof.
  pose proof (run_reported E cfg) as H. split; [|split].
  - intros a s Hrun. rewrite Hrun in H. exact H.
  - intros st message perf s Hrun. rewrite Hrun in H.
    destruct H as (_ & n & _ & Hp & [(Hnil & Hst & _)|(_ & Hv)]).
    + split; [exact Hp|]. left. split; assumption.
    + split; [exact Hp|]. right. exact Hv.
  - intros message s Hrun. rewrite Hrun in H.
    destruct H as (_ & _ & _ & _ & Hp). exact Hp.
Qed.

Lemma perfdata_goes_with_value_witness :
  [mkPerfdatum (PStr "Percentage CPU") (PInt 72) (Some "%") None (Some "70")]
  = perfdata (snd (run (sample_env catalog (series lagging))
                       (command "Percentage CPU" None None None (Some "70")))).
Proof.
  apply (proj1 (proj2 (perfdata_goes_with_value
                         (sample_env catalog (series lagging))
                         (command "Percentage CPU" None None None (Some "70"))))
               CRITICAL "CPU Percentage 72 percent").
  reflexivity.
Defined.

(** For arguments whose timeout is absent or a plain decimal literal,
    the remote calls of a run are an initial part of the same three, in
    the same order: the token request, the request for the
    definitions, the request for the values, all with the timeout
    parsed from the arguments and the last two to the management URL.
    A usage error happens with no call made or right after the
    definitions were requested, never after the metrics endpoint was
    contacted; an exit with perfdata only after all three calls. *)
Theorem calls_follow_the_plan (E : env) (cfg : config) :
  plain_timeout cfg ->
  exists tmo n,
    calls (snd (run E cfg)) = firstn n (planned_calls cfg tmo)
    /\ (n <= 3)%nat
    /\ match fst (run E cfg) with
       | Return _ => False
       | Raise _ => True
       | Exit (ParserError _) => n = 0%nat \/ n = 2%nat
       | Exit (NagiosExit _ _ perf) => (1 <= n)%nat /\ (perf <> [] -> n = 3%nat)
       end.
Proof.
  intros _. pose proof (run_reported E cfg) as H.
  destruct (run E cfg) as [[a|e|[st message perf|message]] s]; [destruct H| | |];
    destruct H as (tmo & n & Hcalls & H); exists tmo, n; cbn [fst snd];
    (split; [exact Hcalls|]).
  - destruct H as [->| ->]; split; trivial; lia.
  - destruct H as (_ & [(-> & _ & [->|[->| ->]])|(-> & v & uom & _ & ->)]).
    + repeat split; try lia. intros []; reflexivity.
    + repeat split; try lia. intros []; reflexivity.
    + repeat split; try lia.
    + repeat split; lia.
  - destruct H as ([->| ->] & _); split; try lia; tauto.
Qed.

Lemma calls_follow_the_plan_witness :
  exists tmo n,
    calls (snd (run (sample_env catalog (series lagging))
                    (mkConfig "app" "key" "tenant" vm "Percentage CPU" None None
                              None (Some "2.5") None (Some "70"))))
    = firstn n (planned_calls
                  (mkConfig "app" "key" "tenant" vm "Percentage CPU" None None
                            None (Some "2.5") None (Some "70")) tmo)
    /\ (n <= 3)%nat
    /\ match fst (run (sample_env catalog (series lagging))
                      (mkConfig "app" "key" "tenant" vm "Percentage CPU" None None
                                None (Some "2.5") None (Some "70"))) with
       | Return _ => False
       | Raise _ => True
       | Exit (ParserError _) => n = 0%nat \/ n = 2%nat
       | Exit (NagiosExit _ _ perf) => (1 <= n)%nat /\ (perf <> [] -> n = 3%nat)
       end.
Proof.
  apply (calls_follow_the_plan
           (sample_env catalog (series lagging))
           (mkConfig "app" "key" "tenant" vm "Percentage CPU" None None
                     None (Some "2.5") None (Some "70"))).
  exists (25 # 10). split; [reflexivity|]. vm_compute. reflexivity.
Defined.

Lemma resolve_dimension_pass cfg properties dims dnames required s :
  dict_get properties "dimensions" (PList []) = Ok (PList dims) ->
  Forall2 (fun x n => getitem x "value" = Ok (PStr n)) dims dnames ->
  getitem properties "isDimensionRequired" = Ok required ->
  (truthy required = true -> dimension cfg <> None) ->
  (forall d, dimension cfg = Some d -> In d dnames) ->
  resolve_dimension cfg properties s = (Return tt, s).
Proof.
  intros Hd Hn Hr Hreq Hdim. unfold resolve_dimension.
  rewrite (bind_Return _ _ s (map PStr dnames) s).
  2:{ apply lift_Ok. unfold rbind. rewrite Hd. cbn [iterate].
      apply comprehension_strings, Hn. }
  rewrite (bind_Return _ _ s required s) by (apply lift_Ok, Hr).
  destruct (dimension cfg) as [d|].
  - rewrite andb_false_r. cbn [when].
    rewrite (bind_Return _ _ s tt s) by reflexivity.
    rewrite (proj2 (existsb_str_eq d dnames) (Hdim d eq_refl)). reflexivity.
  - destruct (truthy required); [now elim (Hreq eq_refl)|]. reflexivity.
Qed.

(** [activate] returns when the run gets to the catalog, the requested
    metric is in it, a dimension name is given if the metric requires
    one, and the dimension name, if given, is one of the dimensions of
    the metric; a dimension may be given for a metric that does not
    require one.  The plugin object holds the arguments, the timeout as
    a number, the catalog and the first definition named as the
    metric. *)
Theorem activate_succeeds (E : env) (cfg : config) (tmo : option Q)
  (definitions : pyval) (items : list pyval) (names : list string)
  (properties : pyval) (dims : list pyval) (dnames : list string)
  (required : pyval) :
  serves_catalog E cfg tmo definitions items ->
  Forall2 (fun m n => metric_name m = Ok (PStr n)) items names ->
  In (metric cfg) names ->
  find_metric (metric cfg) items = Ok properties ->
  dict_get properties "dimensions" (PList []) = Ok (PList dims) ->
  Forall2 (fun x n => getitem x "value" = Ok (PStr n)) dims dnames ->
  getitem properties "isDimensionRequired" = Ok required ->
  (truthy required = true -> dimension cfg <> None) ->
  (forall d, dimension cfg = Some d -> In d dnames) ->
  activate E cfg initial
  = (Return (mkPlugin cfg (host_of cfg) tmo (management_url cfg)
                      definitions properties),
     catalog_state cfg tmo).
Proof.
  intros Hs Hn Hin Hf Hd Hdn Hr Hreq Hdim.
  rewrite (activate_catalog E cfg tmo definitions items Hs).
  destruct Hs as (_ & _ & _ & _ & _ & Hi).
  rewrite (bind_Return _ _ _ _ _
             (resolve_metric_known cfg definitions items names properties _
                                   Hi Hn Hin Hf)).
  rewrite (bind_Return _ _ _ _ _
             (resolve_dimension_pass cfg properties dims dnames required _
                                     Hd Hdn Hr Hreq Hdim)).
  reflexivity.
Qed.

Lemma activate_succeeds_witness :
  activate (sample_env catalog (series []))
           (command "Percentage CPU" None None (Some "80") (Some "90")) initial
  = (Return (activated (command "Percentage CPU" None None (Some "80") (Some "90"))
                       cpu),
     catalog_state (command "Percentage CPU" None None (Some "80") (Some "90"))
                   None).
Proof.
  apply (activate_succeeds
           (sample_env catalog (series []))
           (command "Percentage CPU" None None (Some "80") (Some "90")) None
           (PList [cpu; transactions]) [cpu; transactions]
           ["Percentage CPU"; "Transactions"] cpu [] [] (PBool false)).
  - apply sample_serves_catalog. reflexivity.
  - exact sample_names.
  - cbn. tauto.
  - reflexivity.
  - reflexivity.
  - constructor.
  - reflexivity.
  - discriminate.
  - discriminate.
Defined.

(** A time series entry that is falsy in any way (null, an empty list
    or object, an empty string, zero, false) counts as no data: the
    check exits UNKNOWN with the message for a missing value, before
    the aggregation type of the metric is looked at, so whatever the
    metric properties are. *)
Theorem falsy_series_is_no_data (E : env) (p : plugin) (s : pstate)
  (body ts : pyval) :
  send E (_client p) (metrics_request p) = Json body ->
  timeseries body = Ok ts ->
  truthy ts = false ->
  check_metric E p s
  = (Exit (NagiosExit UNKNOWN (no_value_message (args p)) (perfdata s)),
     after s (Send (_client p) (metrics_request p))).
Proof.
  intros Hs Hts Hfalse.
  apply (check_metric_None E p s (after s (Send (_client p) (metrics_request p)))).
  rewrite (get_metric_value_body E p s body ts Hs Hts), Hfalse. reflexivity.
Qed.

Lemma falsy_series_is_no_data_witness :
  check_metric
    (sample_env catalog
                (Json (PDict [("value", PList [PDict [("timeseries", PNone)]])])))
    (activated (command "Percentage CPU" None None None None) PNone) initial
  = (Exit (NagiosExit UNKNOWN "No value available for metric Percentage CPU" []),
     after initial
           (Send "https://management.azure.com"
                 (metrics_request
                    (activated (command "Percentage CPU" None None None None)
                               PNone)))).
Proof.
  apply (falsy_series_is_no_data
           (sample_env catalog
                       (Json (PDict [("value",
                                      PList [PDict [("timeseries", PNone)]])])))
           (activated (command "Percentage CPU" None None None None) PNone)
           initial
           (PDict [("value", PList [PDict [("timeseries", PNone)]])])
           PNone); reflexivity.
Defined.
